(** * lambda-packager: a shallow embedding of [package-lambda.py]

    The script collects the files of a source directory and of optional
    library directories, drops the [.pyc] files whose [.py] sibling is
    packaged too, and writes one zip archive named after the source
    directory and a Git revision.

    The embedding follows the script function by function.  Python [str]
    values (byte strings, the script is Python 2) are [string]; a Python
    [set] of [File] tuples is a [gset File]; the operating system, the
    file system and the [git] binary are a [World] the functions read;
    the process state the script changes (working directory, printed
    lines, archives written) is threaded through a small state and error
    monad. *)

From Stdlib Require Import Ascii.
From stdpp Require Import gmap strings list.

(** ** The [str] methods the script calls *)

Module PyStr.

(** [s.startswith(p)] *)
Definition startswith (s p : string) : bool := String.prefix p s.

(** [s.endswith(suf)]: [suf] is [s] itself or a suffix of its tail. *)
Fixpoint endswith (s suf : string) : bool :=
  String.eqb s suf ||
  match s with
  | EmptyString => false
  | String _ s' => endswith s' suf
  end.

(** [s[:-1]]: all but the last character; the empty string stays empty. *)
Fixpoint drop_last (s : string) : string :=
  match s with
  | EmptyString => EmptyString
  | String c s' =>
      match s' with
      | EmptyString => EmptyString
      | String _ _ => String c (drop_last s')
      end
  end.

(** [s[n:]]: [s] without its first [n] characters. *)
Fixpoint slice_from (n : nat) (s : string) : string :=
  match n, s with
  | O, _ => s
  | S _, EmptyString => EmptyString
  | S n', String _ s' => slice_from n' s'
  end.

(** [s.find(sub) != -1] *)
Fixpoint contains (s sub : string) : bool :=
  String.prefix sub s ||
  match s with
  | EmptyString => false
  | String _ s' => contains s' sub
  end.

(** [s.rfind(sub) != -1] is the same test; [after_last c s] is
    [s[s.rfind(c) + 1:]] for a one-character [c]. *)
Fixpoint has_char (c : ascii) (s : string) : bool :=
  match s with
  | EmptyString => false
  | String d s' => Ascii.eqb c d || has_char c s'
  end.

Fixpoint after_last (c : ascii) (s : string) : string :=
  match s with
  | EmptyString => EmptyString
  | String d s' => if has_char c s then after_last c s' else s
  end.

(** [s.split(sep)] for a one-character separator: never an empty list,
    [''.split(sep) == ['']] and a trailing separator leaves a trailing
    empty field. *)
Fixpoint split_char (sep : ascii) (s : string) : list string :=
  match s with
  | EmptyString => [EmptyString]
  | String c s' =>
      if Ascii.eqb c sep then EmptyString :: split_char sep s'
      else match split_char sep s' with
           | field :: fields => String c field :: fields
           | [] => [String c EmptyString]
           end
  end.

(** The whitespace of [str.split()] with no argument. *)
Definition is_space (c : ascii) : bool :=
  let n := nat_of_ascii c in
  Nat.eqb n 32 || (Nat.leb 9 n && Nat.leb n 13).

(** [s.split()]: the maximal runs of non-whitespace characters. *)
Fixpoint split_ws (s : string) : list string :=
  match s with
  | EmptyString => []
  | String c s' =>
      if is_space c then split_ws s'
      else match s' with
           | EmptyString => [String c EmptyString]
           | String c' _ =>
               if is_space c' then String c EmptyString :: split_ws s'
               else match split_ws s' with
                    | tok :: toks => String c tok :: toks
                    | [] => [String c EmptyString]
                    end
           end
  end.

End PyStr.

(** ** [File = namedtuple("File", ["absolutePath", "relativePath"])]

    A named tuple compares and hashes by both fields. *)

Record File : Type := mkFile { absolutePath : string; relativePath : string }.

#[global] Instance File_eq_dec : EqDecision File.
Proof. solve_decision. Defined.

#[global] Instance File_countable : Countable File.
Proof.
  refine (inj_countable' (λ f, (absolutePath f, relativePath f))
                         (λ p, mkFile p.1 p.2) _).
  by intros [].
Defined.

(** ** The environment of a run

    What the script reads from outside: the file system through [os.path]
    and [os.walk], and the [git] binary through [Popen].  [os_walk top] is
    the sequence of [(root, dirs, files)] triples [os.walk(top)] yields;
    with the default [onerror=None] a [top] that cannot be listed yields
    nothing.  [popen dir argv] is the standard output of [argv] run with
    working directory [dir], [None] when the program cannot be started. *)

Record World : Type := mkWorld {
  os_path_exists : string → bool;
  os_path_isdir : string → bool;
  os_path_normpath : string → string;
  os_walk : string → list (string * list string * list string);
  popen : string → list string → option string;
  zip_creatable : string → bool;
  file_readable : string → bool
}.

(** ** The process state and the monad of the script *)

Record Archive : Type := mkArchive {
  archive_cwd : string;
  archive_name : string;
  archive_members : list (string * string)
}.

Record Proc : Type := mkProc {
  cwd : string;
  printed : list string;
  archives : list Archive
}.

Inductive PyExc : Type := OSError | IOError | UnboundLocalError | IndexError.

Inductive Outcome (A : Type) : Type :=
| Returned (a : A)
| SysExit (code : Z)
| Raised (e : PyExc).

Arguments Returned {A} a.
Arguments SysExit {A} code.
Arguments Raised {A} e.

Definition Py (A : Type) : Type := Proc → Outcome A * Proc.

#[global] Instance Py_ret : MRet Py := λ A a p, (Returned a, p).

#[global] Instance Py_bind : MBind Py := λ A B k m p,
  match m p with
  | (Returned a, p') => k a p'
  | (SysExit c, p') => (SysExit c, p')
  | (Raised e, p') => (Raised e, p')
  end.

Definition sys_exit {A : Type} (code : Z) : Py A := λ p, (SysExit code, p).

Definition raise {A : Type} (e : PyExc) : Py A := λ p, (Raised e, p).

Definition lift_outcome {A : Type} (o : Outcome A) : Py A := λ p, (o, p).

Definition print (line : string) : Py unit := λ p,
  (Returned tt,
   {| cwd := cwd p; printed := printed p ++ [line]; archives := archives p |}).

(** [for x in xs: body(x)] *)
Fixpoint for_each {A : Type} (xs : list A) (body : A → Py unit) : Py unit :=
  match xs with
  | [] => mret tt
  | x :: xs' => body x;; for_each xs' body
  end.

(** [[f(x) for x in xs]] *)
Fixpoint comprehension {A B : Type} (f : A → Py B) (xs : list A) : Py (list B) :=
  match xs with
  | [] => mret []
  | x :: xs' => y ← f x; ys ← comprehension f xs'; mret (y :: ys)
  end.

(** ** [os] and [os.path] (posixpath) *)

Definition os_path_isabs (s : string) : bool := PyStr.startswith s "/".

(** [os.path.join(a, b)] *)
Definition os_path_join (a b : string) : string :=
  if PyStr.startswith b "/" then b
  else if String.eqb a "" || PyStr.endswith a "/" then a +:+ b
  else a +:+ "/" +:+ b.

(** [os.path.basename(p)]: what follows the last slash. *)
Definition os_path_basename (p : string) : string := PyStr.after_last "/" p.

Definition os_getcwd : Py string := λ p, (Returned (cwd p), p).

Definition os_chdir (w : World) (directory : string) : Py unit := λ p,
  let target := os_path_join (cwd p) directory in
  if os_path_isdir w target
  then (Returned tt,
        {| cwd := target; printed := printed p; archives := archives p |})
  else (Raised OSError, p).

(** [os.path.abspath(path)] *)
Definition os_path_abspath (w : World) (path : string) : Py string :=
  if os_path_isabs path then mret (os_path_normpath w path)
  else cwd ← os_getcwd; mret (os_path_normpath w (os_path_join cwd path)).

(** [Popen(cmd, stdout=PIPE).communicate()]: the standard error is not
    piped, so the second component is [None]. *)
Definition Popen_communicate (w : World) (cmd : list string)
  : Py (string * option string) := λ p,
  match popen w (cwd p) cmd with
  | Some stdout => (Returned (stdout, None), p)
  | None => (Raised OSError, p)
  end.

(** ** [class Git] *)

Module Git.

Definition executeInDirectory (w : World) (directory : string)
    (cmd : list string) : Py (string * option string) :=
  current_working_directory ← os_getcwd;
  os_chdir w directory;;
  out ← Popen_communicate w cmd;
  os_chdir w current_working_directory;;
  mret out.

(** The loop of [getChecksum]: the first row that contains [HEAD] binds
    [hash] and breaks; when no row does, [return hash] reads an unbound
    local. *)
Fixpoint getChecksum_rows (rows : list string) : Outcome string :=
  match rows with
  | [] => Raised UnboundLocalError
  | row :: rows' =>
      if PyStr.contains row "HEAD" then
        match PyStr.split_ws row with
        | hash :: _ => Returned hash
        | [] => Raised IndexError
        end
      else getChecksum_rows rows'
  end.

Definition getChecksum (w : World) (directory : string) : Py string :=
  let cmd := ["git"; "show-ref"] in
  '(stdout, stderr) ← executeInDirectory w directory cmd;
  lift_outcome (getChecksum_rows (PyStr.split_char "010" stdout)).

Definition getUncommitedChanges (w : World) (directory : string)
    : Py (list string) :=
  let cmd := ["git"; "status"; "-s"] in
  '(stdout, stderr) ← executeInDirectory w directory cmd;
  mret (PyStr.split_char "010" stdout).

End Git.

(** ** [class Packager] *)

(** Truth value of an optional list: [None] and [[]] are false. *)
Definition list_truthy {A : Type} (o : option (list A)) : bool :=
  match o with
  | Some (_ :: _) => true
  | _ => false
  end.

(** Truth value of a result that is [True], [False] or [None]. *)
Definition truthy (r : option bool) : bool := default false r.

Module Packager.

(** The [for pattern in exclude] loop; falling off its end returns
    [None]. *)
Fixpoint shouldExclude_loop (file : File) (patterns : list string)
    : option bool :=
  match patterns with
  | [] => None
  | pattern :: patterns' =>
      if PyStr.startswith (relativePath file) pattern then Some true
      else shouldExclude_loop file patterns'
  end.

Definition shouldExclude (file : File) (exclude : option (list string))
    : option bool :=
  if negb (list_truthy exclude) then Some false
  else shouldExclude_loop file (default [] exclude).

(** The [logging.debug] line is a diagnostic only and is left out. *)
Definition getFileList (w : World) (path : string)
    (exclude : option (list string)) : gset File :=
  let l := String.length path in
  foldl
    (λ (f : gset File) '(root, dirs, files),
       foldl
         (λ (f : gset File) candidate_file,
            let absolute_path := os_path_join root candidate_file in
            let relative_path := PyStr.slice_from (l + 1) absolute_path in
            let file := mkFile absolute_path relative_path in
            if negb (truthy (shouldExclude file exclude))
            then {[file]} ∪ f
            else f)
         f files)
    (∅ : gset File) (os_walk w path).

Definition deduplicateFileList (file_list : gset File) : gset File :=
  let duplicated_files :=
    set_fold
      (λ file (duplicated_files : gset File),
         if PyStr.endswith (relativePath file) ".pyc" then
           let uncompiled_file :=
             mkFile (PyStr.drop_last (absolutePath file))
                    (PyStr.drop_last (relativePath file)) in
           if decide (uncompiled_file ∈ file_list)
           then {[file]} ∪ duplicated_files
           else duplicated_files
         else duplicated_files)
      (∅ : gset File) file_list in
  file_list ∖ duplicated_files.

Definition getDeduplicatedFileList (w : World) (path : string)
    (exclude : option (list string)) : list File :=
  elements (deduplicateFileList (getFileList w path exclude)).

(** [zipfile.ZipFile(filename, 'w')]: the archive is created, empty, at
    [filename] taken from the working directory. *)
Definition ZipFile_open (w : World) (filename : string) : Py unit := λ p,
  if zip_creatable w (os_path_join (cwd p) filename)
  then (Returned tt,
        {| cwd := cwd p; printed := printed p;
           archives := mkArchive (cwd p) filename [] :: archives p |})
  else (Raised IOError, p).

(** [zipf.write(full_path, relative_path)] on the archive opened last. *)
Definition ZipFile_write (w : World) (full_path relative_path : string)
    : Py unit := λ p,
  if file_readable w (os_path_join (cwd p) full_path) then
    match archives p with
    | z :: zs =>
        (Returned tt,
         {| cwd := cwd p; printed := printed p;
            archives :=
              mkArchive (archive_cwd z) (archive_name z)
                (archive_members z ++ [(full_path, relative_path)]) :: zs |})
    | [] => (Raised IOError, p)
    end
  else (Raised OSError, p).

Definition createZip (w : World) (filename : string) (file_list : list File)
    : Py unit :=
  ZipFile_open w filename;;
  for_each file_list
    (λ '(mkFile full_path relative_path),
       ZipFile_write w full_path relative_path).

End Packager.

(** ** The functions of the script *)

(** The [logging.error] line is a diagnostic only and is left out. *)
Definition files_to_package (w : World) (sources : string)
    (libraries exclude : option (list string)) : Py (list File) :=
  source_directory ← os_path_abspath w sources;
  (if negb (os_path_exists w source_directory) then sys_exit 1 else mret tt);;
  let source_files :=
    Packager.getDeduplicatedFileList w source_directory exclude in
  library_files ←
    (if list_truthy libraries then
       library_directories ←
         comprehension (os_path_abspath w) (default [] libraries);
       mret (foldl
               (λ library_files library_directory,
                  library_files ++
                  Packager.getDeduplicatedFileList w library_directory exclude)
               [] library_directories)
     else mret []);
  mret (source_files ++ library_files).

Definition zip_filename (w : World) (source_directory : string) : Py string :=
  git_checksum ← Git.getChecksum w source_directory;
  let base := os_path_basename source_directory in
  checksum ← Git.getChecksum w source_directory;
  mret (base +:+ "-" +:+ checksum +:+ ".zip").

Definition enforce_strict (w : World) (directory : string) : Py unit :=
  changes ← Git.getUncommitedChanges w directory;
  if Nat.ltb 0 (length changes) then
    print ("Error: Refusing to package " +:+ directory);;
    print "There are uncommited changes:";;
    for_each changes print;;
    print "Please commit changes and run again, or disable strict mode.";;
    sys_exit 2
  else mret tt.

Definition package (w : World) (strict : bool) (sources : string)
    (libraries exclude : option (list string)) : Py unit :=
  (if strict then enforce_strict w sources else mret tt);;
  files ← files_to_package w sources libraries exclude;
  output_filename ← zip_filename w sources;
  Packager.createZip w output_filename files;;
  print ("Created lambda zip file: " +:+ output_filename).

(** ** Vocabulary of the specification *)

(** A compiled artifact is recognised by its relative path. *)
Definition is_compiled (f : File) : bool :=
  PyStr.endswith (relativePath f) ".pyc".

(** The entry [deduplicateFileList] looks for: both paths of [f] without
    their last character. *)
Definition uncompiled_of (f : File) : File :=
  mkFile (PyStr.drop_last (absolutePath f)) (PyStr.drop_last (relativePath f)).

(** The specification's pairing, by relative path alone: some entry of
    the set has the relative path of [f] with the suffix stripped. *)
Definition has_source_sibling (fs : gset File) (f : File) : Prop :=
  ∃ g, g ∈ fs ∧ relativePath g = PyStr.drop_last (relativePath f).

(** An entry found under [root]: its absolute path is its relative path
    below [root]. *)
Definition under_root (root : string) (f : File) : Prop :=
  absolutePath f = root +:+ "/" +:+ relativePath f.

(** The candidates of a discovery: one entry per file name [os.walk]
    reports, in the order of the walk. *)
Definition candidates (w : World) (path : string) : list File :=
  '(root, dirs, files) ← os_walk w path;
  candidate_file ← files;
  let absolute_path := os_path_join root candidate_file in
  [mkFile absolute_path
          (PyStr.slice_from (String.length path + 1) absolute_path)].

(** What [os.walk(path)] yields for a directory named without a
    trailing slash: [path] itself and directories below it, none named
    with a trailing slash, each with plain file names. *)
Definition walk_is_below (w : World) (path : string) : Prop :=
  ∀ root dirs files, (root, dirs, files) ∈ os_walk w path →
    (root = path ∨ ∃ sub, root = path +:+ "/" +:+ sub) ∧
    root ≠ "" ∧
    PyStr.endswith root "/" = false ∧
    ∀ name, name ∈ files → PyStr.startswith name "/" = false.

(** The entries the loop collects in [duplicated_files]. *)
Definition redundant (fs : gset File) (f : File) : Prop :=
  is_compiled f = true ∧ uncompiled_of f ∈ fs.

(** Some rule of the list is a prefix of the relative path. *)
Definition matches_rule (exclude : list string) (f : File) : Prop :=
  ∃ pattern, pattern ∈ exclude ∧
             PyStr.startswith (relativePath f) pattern = true.

(** [os.path.abspath(path)] evaluated in working directory [c]. *)
Definition abspath_at (w : World) (c path : string) : string :=
  if os_path_isabs path then os_path_normpath w path
  else os_path_normpath w (os_path_join c path).

(** The members [files_to_package] resolves in working directory [c]. *)
Definition resolved_members (w : World) (c sources : string)
    (libraries exclude : option (list string)) : list File :=
  Packager.getDeduplicatedFileList w (abspath_at w c sources) exclude ++
  mjoin ((λ d, Packager.getDeduplicatedFileList w (abspath_at w c d) exclude)
            <$> default [] libraries).

(** A list that enumerates, without repetition, the deduplicated
    discovery of one directory. *)
Definition enumerates (w : World) (exclude : option (list string))
    (directory : string) (group : list File) : Prop :=
  NoDup group ∧
  ∀ f, f ∈ group
       ↔ f ∈ Packager.deduplicateFileList
               (Packager.getFileList w directory exclude).

(** What [enforce_strict] prints before it exits. *)
Definition strict_listing (directory : string) (changes : list string)
    : list string :=
  ["Error: Refusing to package " +:+ directory;
   "There are uncommited changes:"] ++
  changes ++
  ["Please commit changes and run again, or disable strict mode."].

(** The archive members written for a list of files. *)
Definition members_of (files : list File) : list (string * string) :=
  (λ f, (absolutePath f, relativePath f)) <$> files.

(** ** A concrete environment

    A working directory [/work] with a function directory [fn] (a module
    with its compiled sibling, a compiled file without source, one
    package), a library directory [libs], and no directory [missing].
    [fn] is a clean Git checkout. *)

Definition nl : string := String "010" EmptyString.

Definition demo_dirs : list string :=
  ["/work"; "/work/fn"; "/work/fn/pkg"; "/work/libs"].

Definition demo_files : list string :=
  ["/work/fn/handler.py"; "/work/fn/handler.pyc"; "/work/fn/orphan.pyc";
   "/work/fn/pkg/util.py"; "/work/libs/dep.py"; "/work/libs/orphan.py"].

Definition demo_walk (top : string)
    : list (string * list string * list string) :=
  if String.eqb top "/work/fn" then
    [("/work/fn", ["pkg"], ["handler.py"; "handler.pyc"; "orphan.pyc"]);
     ("/work/fn/pkg", [], ["util.py"])]
  else if String.eqb top "/work/libs" then
    [("/work/libs", [], ["dep.py"; "orphan.py"])]
  else [].

Definition demo_show_ref : string :=
  "3f2a9c1d5e7b8a6f4c2d1e0f9a8b7c6d5e4f3a2b refs/heads/master" +:+ nl +:+
  "3f2a9c1d5e7b8a6f4c2d1e0f9a8b7c6d5e4f3a2b refs/remotes/origin/HEAD" +:+ nl.

Definition demo_popen (dir : string) (argv : list string) : option string :=
  if String.eqb dir "/work/fn" then
    if bool_decide (argv = ["git"; "show-ref"]) then Some demo_show_ref
    else if bool_decide (argv = ["git"; "status"; "-s"]) then Some ""
    else None
  else None.

Definition demo_world : World :=
  {| os_path_exists := λ p, bool_decide (p ∈ demo_dirs ++ demo_files);
     os_path_isdir := λ p, bool_decide (p ∈ demo_dirs);
     os_path_normpath := λ p, p;
     os_walk := demo_walk;
     popen := demo_popen;
     zip_creatable := λ _, true;
     file_readable := λ p, bool_decide (p ∈ demo_files) |}.

Definition demo_proc : Proc := mkProc "/work" [] [].

(** ** Vocabulary for the string primitives *)

(** Number of occurrences of a character. *)
Fixpoint count_char (c : ascii) (s : string) : nat :=
  match s with
  | EmptyString => 0
  | String d s' => (if Ascii.eqb d c then 1 else 0) + count_char c s'
  end.

(** [sep.join(fields)] for a one-character separator. *)
Fixpoint join_char (sep : ascii) (fields : list string) : string :=
  match fields with
  | [] => EmptyString
  | field :: fields' =>
      match fields' with
      | [] => field
      | _ :: _ => field +:+ String sep (join_char sep fields')
      end
  end.

(** Some character of the string is whitespace. *)
Fixpoint has_space (s : string) : bool :=
  match s with
  | EmptyString => false
  | String c s' => PyStr.is_space c || has_space s'
  end.

(** A directory handed to the walk with a trailing slash: [os.walk]
    reports the top directory under the name it was given. *)
Definition slash_world : World :=
  {| os_path_exists := λ p, bool_decide (p ∈ ["/srv/fn/"; "/srv/fn/handler.py"]);
     os_path_isdir := λ p, bool_decide (p = "/srv/fn/");
     os_path_normpath := λ p, p;
     os_walk := λ top,
       if String.eqb top "/srv/fn/" then [("/srv/fn/", [], ["handler.py"])]
       else [];
     popen := λ _ _, None;
     zip_creatable := λ _, true;
     file_readable := λ p, bool_decide (p = "/srv/fn/handler.py") |}.

(** ** A Git repository behind [git show-ref]

    What [git show-ref] prints for a repository: one row
    [<object id> <reference name>] per reference under [refs/], in the
    order of the names; [HEAD] itself is not a row.  [repo_head] is the
    reference [HEAD] points at, the one currently checked out. *)

Record Repo : Type := mkRepo {
  repo_head : string;
  repo_refs : list (string * string)
}.

Definition git_show_ref (r : Repo) : string :=
  foldr (λ '(name, id) rows, id +:+ " " +:+ name +:+ nl +:+ rows)
        EmptyString (repo_refs r).

(** The object id of the reference currently checked out. *)
Definition checked_out_id (r : Repo) : option string :=
  match list_find (λ ref, ref.1 = repo_head r) (repo_refs r) with
  | Some (_, (_, id)) => Some id
  | None => None
  end.

(** The abbreviated form of an object id: its first seven characters. *)
Fixpoint take_chars (n : nat) (s : string) : string :=
  match n, s with
  | S n', String c s' => String c (take_chars n' s')
  | _, _ => EmptyString
  end.

Definition short_id (id : string) : string := take_chars 7 id.

(** The revision in the words of the specification: the short
    identifier of the reference currently checked out. *)
Definition spec_revisionOf (r : Repo) : option string :=
  short_id <$> checked_out_id r.

(** A working directory [/work] holding one function directory
    [myFunc] with one module, a checkout of the repository [r]; the
    directory may be named with a trailing slash. *)
Definition repo_world (r : Repo) : World :=
  {| os_path_exists := λ p,
       bool_decide (p ∈ ["/work"; "/work/myFunc"; "/work/myFunc/";
                         "/work/myFunc/handler.py"]);
     os_path_isdir := λ p,
       bool_decide (p ∈ ["/work"; "/work/myFunc"; "/work/myFunc/"]);
     os_path_normpath := λ p,
       if String.eqb p "/work/myFunc/" then "/work/myFunc" else p;
     os_walk := λ top,
       if String.eqb top "/work/myFunc"
       then [("/work/myFunc", [], ["handler.py"])]
       else [];
     popen := λ dir argv,
       if bool_decide (dir ∈ ["/work/myFunc"; "/work/myFunc/"]) then
         if bool_decide (argv = ["git"; "show-ref"]) then Some (git_show_ref r)
         else if bool_decide (argv = ["git"; "status"; "-s"])
              then Some EmptyString
              else None
       else None;
     zip_creatable := λ _, true;
     file_readable := λ p, bool_decide (p = "/work/myFunc/handler.py") |}.

(** A clone whose branch [master] is checked out one commit ahead of
    the branch the remote's [HEAD] names. *)
Definition ahead_repo : Repo :=
  {| repo_head := "refs/heads/master";
     repo_refs :=
       [("refs/heads/master", "7ed9c0a1b2c3d4e5f60718293a4b5c6d7e8f9012");
        ("refs/remotes/origin/HEAD", "44830f1e2d3c4b5a69788796a5b4c3d2e1f00112");
        ("refs/remotes/origin/master",
         "44830f1e2d3c4b5a69788796a5b4c3d2e1f00112")] |}.

(** A repository with no remote. *)
Definition local_repo : Repo :=
  {| repo_head := "refs/heads/master";
     repo_refs :=
       [("refs/heads/master", "7ed9c0a1b2c3d4e5f60718293a4b5c6d7e8f9012")] |}.

(** * Properties *)

(** ** Facts about the string primitives *)

Section string_facts.

Lemma append_cons (x : ascii) (a b : string) :
  String x a +:+ b = String x (a +:+ b).
Proof. reflexivity. Qed.

Lemma append_nil_l (b : string) : "" +:+ b = b.
Proof. reflexivity. Qed.

Lemma append_assoc (a b c : string) : (a +:+ b) +:+ c = a +:+ b +:+ c.
Proof.
  induction a as [|x a IH]; [done|]. rewrite !append_cons. by f_equal.
Qed.

Lemma startswith_empty (s : string) : PyStr.startswith s "" = true.
Proof. by destruct s. Qed.

Lemma drop_last_snoc (s : string) (c : ascii) :
  PyStr.drop_last (s +:+ String c EmptyString) = s.
Proof.
  induction s as [|x s IH]; [done|].
  rewrite append_cons. destruct s as [|y s]; [done|].
  rewrite append_cons in *. cbn [PyStr.drop_last] in *. by rewrite IH.
Qed.

Lemma endswith_pyc_source (p : string) :
  PyStr.endswith (p +:+ "c") ".pyc" = true →
  PyStr.endswith p ".pyc" = false.
Proof.
  induction p as [|x p IH]; [done|].
  rewrite append_cons. cbn [PyStr.endswith].
  intros [Heq | Htl]%orb_true_iff.
  - apply String.eqb_eq in Heq. injection Heq as -> Hp.
    destruct p as [|? [|? [|? p]]];
      rewrite ?append_cons, ?append_nil_l in Hp;
      [discriminate.. | injection Hp as -> -> | ]; [done|].
    injection Hp as _ _ _ Hp. destruct p; discriminate.
  - rewrite (IH Htl), orb_false_r.
    apply String.eqb_neq. intros [= -> ->]. done.
Qed.

Lemma slice_from_app (a b : string) :
  PyStr.slice_from (String.length a) (a +:+ b) = b.
Proof. induction a as [|x a IH]; [by destruct b | done]. Qed.

Lemma slice_from_root (root rel : string) :
  PyStr.slice_from (String.length root + 1) (root +:+ "/" +:+ rel) = rel.
Proof. induction root as [|x root IH]; [by destruct rel | done]. Qed.

Lemma startswith_spec (s p : string) :
  PyStr.startswith s p = true ↔ ∃ rest, s = p +:+ rest.
Proof.
  unfold PyStr.startswith. revert s.
  induction p as [|x p IH]; intros [|y s]; cbn [String.prefix].
  - split; [by exists "" | done].
  - split; [by exists (String y s) | done].
  - split; [done | by intros [rest ?]].
  - destruct (ascii_dec x y) as [->|Hne].
    + rewrite IH. split.
      * intros [rest ->]. by exists rest.
      * intros [rest Hs]. rewrite append_cons in Hs.
        injection Hs as ->. by exists rest.
    + split; [done|]. intros [rest Hs]. rewrite append_cons in Hs.
      by injection Hs as -> _.
Qed.

Lemma endswith_spec (s suf : string) :
  PyStr.endswith s suf = true ↔ ∃ pre, s = pre +:+ suf.
Proof.
  induction s as [|x s IH]; cbn [PyStr.endswith].
  - rewrite orb_false_r, String.eqb_eq. split.
    + intros <-. by exists "".
    + intros [[|y pre] Hs]; [done | by rewrite append_cons in Hs].
  - rewrite orb_true_iff, String.eqb_eq, IH. split.
    + intros [<- | [pre ->]]; [by exists "" | by exists (String x pre)].
    + intros [[|y pre] Hs]; [by left | right].
      rewrite append_cons in Hs. injection Hs as _ ->. by exists pre.
Qed.

Lemma contains_spec (s sub : string) :
  PyStr.contains s sub = true ↔ ∃ pre post, s = pre +:+ sub +:+ post.
Proof.
  induction s as [|x s IH]; cbn [PyStr.contains].
  - rewrite orb_false_r. fold (PyStr.startswith "" sub).
    rewrite startswith_spec. split.
    + intros [post ->]. by exists "", post.
    + intros ([|y pre] & post & Hs); [by exists post|].
      by rewrite append_cons in Hs.
  - rewrite orb_true_iff, IH. fold (PyStr.startswith (String x s) sub).
    rewrite startswith_spec. split.
    + intros [[post ->] | (pre & post & ->)];
        [by exists "", post | by exists (String x pre), post].
    + intros ([|y pre] & post & Hs); [left; by exists post | right].
      rewrite append_cons in Hs. injection Hs as _ ->. by exists pre, post.
Qed.

Lemma split_char_nonempty (sep : ascii) (s : string) :
  PyStr.split_char sep s ≠ [].
Proof.
  destruct s as [|c s]; simpl; [done|].
  destruct (Ascii.eqb c sep); [done|].
  by destruct (PyStr.split_char sep s).
Qed.

End string_facts.

(** ** Facts about [deduplicateFileList] *)

Section dedup_facts.

Implicit Types (fs : gset File) (f : File).

Lemma elem_of_deduplicateFileList fs f :
  f ∈ Packager.deduplicateFileList fs ↔ f ∈ fs ∧ ¬ redundant fs f.
Proof.
  unfold Packager.deduplicateFileList.
  set (step := λ file (dup : gset File), _).
  assert (Hdup : ∀ (X : gset File) g, g ∈ set_fold step (∅ : gset File) X
                        ↔ g ∈ X ∧ redundant fs g).
  { intros X.
    apply (set_fold_ind_L
             (λ (acc X : gset File), ∀ g, g ∈ acc ↔ g ∈ X ∧ redundant fs g));
      clear X.
    - intros g. rewrite !elem_of_empty. tauto.
    - intros x X r Hx IH g.
      assert (Hstep : g ∈ step x r ↔ (g = x ∧ redundant fs x) ∨ g ∈ r).
      { unfold step, redundant, is_compiled, uncompiled_of.
        destruct (PyStr.endswith (relativePath x) ".pyc");
          [destruct (decide (_ ∈ fs))|];
          rewrite ?elem_of_union, ?elem_of_singleton; intuition congruence. }
      rewrite Hstep, IH, elem_of_union, elem_of_singleton.
      intuition (subst; auto). }
  rewrite elem_of_difference, Hdup. tauto.
Qed.

Lemma deduplicateFileList_subseteq fs : Packager.deduplicateFileList fs ⊆ fs.
Proof. intros f. rewrite elem_of_deduplicateFileList. tauto. Qed.

(** A redundant entry has a sibling in the specification's sense. *)
Lemma redundant_has_sibling fs f : redundant fs f → has_source_sibling fs f.
Proof. intros [_ Hin]. by exists (uncompiled_of f). Qed.

Lemma deduplicateFileList_keeps fs f :
  f ∈ fs → ¬ redundant fs f → f ∈ Packager.deduplicateFileList fs.
Proof. intros. by apply elem_of_deduplicateFileList. Qed.

Lemma deduplicateFileList_id fs :
  (∀ f, f ∈ fs → ¬ redundant fs f) → Packager.deduplicateFileList fs = fs.
Proof.
  intros Hno. apply set_eq. intros f.
  rewrite elem_of_deduplicateFileList. specialize (Hno f). tauto.
Qed.

End dedup_facts.

(** ** Facts about [shouldExclude] and [getFileList] *)

Section discovery_facts.

Implicit Types (f : File) (fs : gset File).

Lemma shouldExclude_loop_cases f patterns :
  (Packager.shouldExclude_loop f patterns = Some true ∧
   matches_rule patterns f) ∨
  (Packager.shouldExclude_loop f patterns = None ∧
   ¬ matches_rule patterns f).
Proof.
  unfold matches_rule.
  induction patterns as [|pattern patterns IH]; cbn [Packager.shouldExclude_loop].
  - right. split; [done|]. intros (? & []%elem_of_nil & _).
  - destruct (PyStr.startswith (relativePath f) pattern) eqn:Hp.
    + left. split; [done|]. exists pattern. split; [left | done].
    + destruct IH as [[-> (q & Hq & Hm)] | [-> Hno]].
      * left. split; [done|]. exists q. split; [by right | done].
      * right. split; [done|].
        intros (q & [-> | Hq]%elem_of_cons & Hm); [congruence|].
        apply Hno. by exists q.
Qed.

Lemma truthy_shouldExclude f (exclude : list string) :
  truthy (Packager.shouldExclude f (Some exclude)) = true
  ↔ matches_rule exclude f.
Proof.
  destruct exclude as [|pattern exclude].
  - cbn. split; [done|]. intros (? & []%elem_of_nil & _).
  - change (Packager.shouldExclude f (Some (pattern :: exclude)))
      with (Packager.shouldExclude_loop f (pattern :: exclude)).
    destruct (shouldExclude_loop_cases f (pattern :: exclude))
      as [[-> Hm] | [-> Hno]]; cbn; [tauto|]. split; [done | tauto].
Qed.

Lemma shouldExclude_absent f : Packager.shouldExclude f None = Some false.
Proof. reflexivity. Qed.

Lemma shouldExclude_empty f : Packager.shouldExclude f (Some []) = Some false.
Proof. reflexivity. Qed.

(** The inner loop of [getFileList], over the file names of one
    directory of the walk. *)
Lemma elem_of_inner_loop (l : nat) exclude (root : string)
    (files : list string) (acc : gset File) f :
  f ∈ foldl
        (λ (f : gset File) candidate_file,
           let absolute_path := os_path_join root candidate_file in
           let relative_path := PyStr.slice_from (l + 1) absolute_path in
           let file := mkFile absolute_path relative_path in
           if negb (truthy (Packager.shouldExclude file exclude))
           then {[file]} ∪ f
           else f)
        acc files
  ↔ f ∈ acc ∨
    (f ∈ (λ name, mkFile (os_path_join root name)
                    (PyStr.slice_from (l + 1) (os_path_join root name)))
           <$> files ∧
     truthy (Packager.shouldExclude f exclude) = false).
Proof.
  revert acc. induction files as [|name files IH]; intros acc; cbn [foldl fmap list_fmap].
  - rewrite elem_of_nil. tauto.
  - rewrite IH, elem_of_cons. cbn zeta.
    set (file := mkFile (os_path_join root name) _).
    destruct (truthy (Packager.shouldExclude file exclude)) eqn:Hx; cbn [negb].
    + intuition (subst; congruence).
    + rewrite elem_of_union, elem_of_singleton. intuition (subst; auto).
Qed.

Lemma elem_of_getFileList (w : World) (path : string) exclude f :
  f ∈ Packager.getFileList w path exclude
  ↔ f ∈ candidates w path ∧
    truthy (Packager.shouldExclude f exclude) = false.
Proof.
  unfold Packager.getFileList, candidates.
  set (l := String.length path).
  enough (Hgen : ∀ (triples : list (string * list string * list string))
                   (acc : gset File),
    f ∈ foldl
          (λ (f : gset File) '(root, dirs, files),
             foldl
               (λ (f : gset File) candidate_file,
                  let absolute_path := os_path_join root candidate_file in
                  let relative_path :=
                    PyStr.slice_from (l + 1) absolute_path in
                  let file := mkFile absolute_path relative_path in
                  if negb (truthy (Packager.shouldExclude file exclude))
                  then {[file]} ∪ f
                  else f)
               f files)
          acc triples
    ↔ f ∈ acc ∨
      (f ∈ ('(root, dirs, files) ← triples;
            candidate_file ← files;
            [mkFile (os_path_join root candidate_file)
               (PyStr.slice_from (l + 1)
                  (os_path_join root candidate_file))]) ∧
       truthy (Packager.shouldExclude f exclude) = false)).
  { rewrite Hgen, elem_of_empty. tauto. }
  induction triples as [|[[root dirs] files] triples IH]; intros acc.
  - cbn. rewrite elem_of_nil. tauto.
  - cbn [foldl]. rewrite IH, elem_of_inner_loop.
    rewrite bind_cons, elem_of_app.
    assert (Hmap : ∀ names : list string,
      (names ≫= λ candidate_file,
         [mkFile (os_path_join root candidate_file)
            (PyStr.slice_from (l + 1) (os_path_join root candidate_file))])
      = (λ name, mkFile (os_path_join root name)
                   (PyStr.slice_from (l + 1) (os_path_join root name)))
          <$> names).
    { induction names as [|n names IHn]; [done|].
      rewrite bind_cons, fmap_cons, IHn. done. }
    rewrite Hmap. tauto.
Qed.

Lemma getFileList_absent (w : World) (path : string) :
  Packager.getFileList w path None = list_to_set (candidates w path).
Proof.
  apply set_eq. intros f.
  rewrite elem_of_getFileList, elem_of_list_to_set, shouldExclude_absent.
  cbn. tauto.
Qed.

Lemma getFileList_empty (w : World) (path : string) :
  Packager.getFileList w path (Some []) = list_to_set (candidates w path).
Proof.
  apply set_eq. intros f.
  rewrite elem_of_getFileList, elem_of_list_to_set, shouldExclude_empty.
  cbn. tauto.
Qed.

Lemma os_path_join_plain (root name : string) :
  root ≠ "" →
  PyStr.endswith root "/" = false →
  PyStr.startswith name "/" = false →
  os_path_join root name = root +:+ "/" +:+ name.
Proof.
  intros Hne Hslash Hname. unfold os_path_join. rewrite Hname, Hslash.
  by apply String.eqb_neq in Hne as ->.
Qed.

(** X18.  Under a well-formed walk of a directory named without a
    trailing slash, every discovered entry lies under the directory that
    was walked: its absolute path is the directory, a slash and its
    relative path. *)
Lemma getFileList_under_root (w : World) (path : string) exclude f :
  walk_is_below w path →
  f ∈ Packager.getFileList w path exclude →
  under_root path f.
Proof.
  intros Hwalk [Hf _]%elem_of_getFileList. unfold candidates in Hf.
  apply list_elem_of_bind in Hf as ([[root dirs] files] & Hf & Htriple).
  apply list_elem_of_bind in Hf as (name & Hf & Hname).
  apply list_elem_of_singleton in Hf as ->.
  destruct (Hwalk _ _ _ Htriple) as (Hroot & Hne & Hslash & Hplain).
  rewrite (os_path_join_plain _ _ Hne Hslash (Hplain _ Hname)).
  unfold under_root. cbn [absolutePath relativePath].
  destruct Hroot as [-> | [sub ->]].
  - by rewrite slice_from_root.
  - by rewrite !append_assoc, slice_from_root.
Qed.

End discovery_facts.

(** ** Running the monad *)

Section run_facts.

Context (w : World).

Lemma bind_returned_inv {A B : Type} (m : Py A) (k : A → Py B) p b p' :
  (m ≫= k) p = (Returned b, p') →
  ∃ a p1, m p = (Returned a, p1) ∧ k a p1 = (Returned b, p').
Proof.
  unfold mbind, Py_bind. destruct (m p) as [[a|c|e] p1]; [eauto | done..].
Qed.

Lemma bind_run {A B : Type} (m : Py A) (k : A → Py B) p a p1 :
  m p = (Returned a, p1) → (m ≫= k) p = k a p1.
Proof. unfold mbind, Py_bind. by intros ->. Qed.

Lemma bind_exit {A B : Type} (m : Py A) (k : A → Py B) p c p1 :
  m p = (SysExit c, p1) → (m ≫= k) p = (SysExit c, p1).
Proof. unfold mbind, Py_bind. by intros ->. Qed.

Lemma bind_raised {A B : Type} (m : Py A) (k : A → Py B) p e p1 :
  m p = (Raised e, p1) → (m ≫= k) p = (Raised e, p1).
Proof. unfold mbind, Py_bind. by intros ->. Qed.

Lemma os_path_join_isabs (a b : string) :
  os_path_isabs b = true → os_path_join a b = b.
Proof. unfold os_path_isabs, os_path_join. by intros ->. Qed.

Lemma os_path_abspath_run (path : string) p :
  os_path_abspath w path p = (Returned (abspath_at w (cwd p) path), p).
Proof.
  unfold os_path_abspath, abspath_at. by destruct (os_path_isabs path).
Qed.

Lemma comprehension_abspath_run (paths : list string) p :
  comprehension (os_path_abspath w) paths p
  = (Returned (abspath_at w (cwd p) <$> paths), p).
Proof.
  induction paths as [|d paths IH]; [done|].
  cbn [comprehension].
  rewrite (bind_run _ _ _ _ _ (os_path_abspath_run d p)).
  by rewrite (bind_run _ _ _ _ _ IH).
Qed.

Lemma foldl_extend {A B : Type} (g : A → list B) (ds : list A)
    (acc : list B) :
  foldl (λ library_files d, library_files ++ g d) acc ds
  = acc ++ mjoin (g <$> ds).
Proof.
  revert acc. induction ds as [|d ds IH]; intros acc; cbn.
  - by rewrite app_nil_r.
  - by rewrite IH, <- app_assoc.
Qed.

Lemma files_to_package_run (sources : string)
    (libraries exclude : option (list string)) p :
  files_to_package w sources libraries exclude p
  = if os_path_exists w (abspath_at w (cwd p) sources)
    then (Returned (resolved_members w (cwd p) sources libraries exclude), p)
    else (SysExit 1, p).
Proof.
  unfold files_to_package, resolved_members, mbind, Py_bind.
  rewrite os_path_abspath_run.
  destruct (os_path_exists w (abspath_at w (cwd p) sources));
    cbn [negb]; [|reflexivity].
  unfold mret at 1, Py_ret at 1.
  destruct libraries as [[|d ds]|]; cbn [list_truthy default id].
  - reflexivity.
  - rewrite comprehension_abspath_run.
    unfold mret, Py_ret. rewrite foldl_extend, <- list_fmap_compose. reflexivity.
  - reflexivity.
Qed.

End run_facts.

(** ** Facts about [class Git] *)

Section git_facts.

Context (w : World).

Lemma Proc_eta p : mkProc (cwd p) (printed p) (archives p) = p.
Proof. by destruct p. Qed.

Lemma executeInDirectory_unfold (directory : string) (cmd : list string) p :
  Git.executeInDirectory w directory cmd p =
    let target := os_path_join (cwd p) directory in
    if os_path_isdir w target then
      match popen w target cmd with
      | Some stdout =>
          if os_path_isdir w (os_path_join target (cwd p))
          then (Returned (stdout, None),
                mkProc (os_path_join target (cwd p)) (printed p) (archives p))
          else (Raised OSError, mkProc target (printed p) (archives p))
      | None => (Raised OSError, mkProc target (printed p) (archives p))
      end
    else (Raised OSError, p).
Proof.
  unfold Git.executeInDirectory, mbind, Py_bind, os_getcwd, os_chdir,
    Popen_communicate.
  cbn. destruct (os_path_isdir w (os_path_join (cwd p) directory)); [|done].
  cbn. destruct (popen w _ cmd); [|done].
  by destruct (os_path_isdir w (os_path_join _ (cwd p))).
Qed.

Lemma executeInDirectory_archives (directory : string) (cmd : list string) p :
  printed (Git.executeInDirectory w directory cmd p).2 = printed p ∧
  archives (Git.executeInDirectory w directory cmd p).2 = archives p.
Proof.
  rewrite executeInDirectory_unfold. cbn zeta.
  destruct (os_path_isdir w (os_path_join (cwd p) directory)); [|done].
  destruct (popen w _ cmd); [|done].
  by destruct (os_path_isdir w (os_path_join _ (cwd p))).
Qed.

Lemma executeInDirectory_returned (directory : string) (cmd : list string)
    p out p' :
  os_path_isabs (cwd p) = true →
  Git.executeInDirectory w directory cmd p = (Returned out, p') →
  p' = p ∧
  ∃ stdout, out = (stdout, None) ∧
            popen w (os_path_join (cwd p) directory) cmd = Some stdout.
Proof.
  intros Habs. rewrite executeInDirectory_unfold. cbn zeta.
  rewrite (os_path_join_isabs _ _ Habs).
  destruct (os_path_isdir w (os_path_join (cwd p) directory)); [|done].
  destruct (popen w _ cmd) as [stdout|]; [|done].
  destruct (os_path_isdir w (cwd p)); [|done].
  intros [= <- <-]. rewrite Proc_eta. eauto.
Qed.

Lemma executeInDirectory_ok (directory : string) (cmd : list string)
    p stdout :
  os_path_isabs (cwd p) = true →
  os_path_isdir w (cwd p) = true →
  os_path_isdir w (os_path_join (cwd p) directory) = true →
  popen w (os_path_join (cwd p) directory) cmd = Some stdout →
  Git.executeInDirectory w directory cmd p = (Returned (stdout, None), p).
Proof.
  intros Habs Hcwd Hdir Hout. rewrite executeInDirectory_unfold. cbn zeta.
  by rewrite (os_path_join_isabs _ _ Habs), Hdir, Hout, Hcwd, Proc_eta.
Qed.

Lemma getChecksum_archives (directory : string) p :
  printed (Git.getChecksum w directory p).2 = printed p ∧
  archives (Git.getChecksum w directory p).2 = archives p.
Proof.
  unfold Git.getChecksum, mbind, Py_bind, lift_outcome.
  pose proof (executeInDirectory_archives directory ["git"; "show-ref"] p) as H.
  destruct (Git.executeInDirectory w directory _ p) as [[[stdout stderr]|c|e] p1];
    exact H.
Qed.

Lemma getChecksum_returned (directory : string) p hash p' :
  os_path_isabs (cwd p) = true →
  Git.getChecksum w directory p = (Returned hash, p') →
  p' = p ∧
  ∃ stdout,
    popen w (os_path_join (cwd p) directory) ["git"; "show-ref"]
      = Some stdout ∧
    Git.getChecksum_rows (PyStr.split_char "010" stdout) = Returned hash.
Proof.
  intros Habs. unfold Git.getChecksum. intros H.
  apply bind_returned_inv in H as ([stdout stderr] & p1 & Hexec & Hrows).
  apply executeInDirectory_returned in Hexec as [-> (s & [= -> ->] & Hout)];
    [|done].
  unfold lift_outcome in Hrows. injection Hrows as Hrows <-. eauto.
Qed.

Lemma getChecksum_ok (directory : string) p stdout hash :
  os_path_isabs (cwd p) = true →
  os_path_isdir w (cwd p) = true →
  os_path_isdir w (os_path_join (cwd p) directory) = true →
  popen w (os_path_join (cwd p) directory) ["git"; "show-ref"]
    = Some stdout →
  Git.getChecksum_rows (PyStr.split_char "010" stdout) = Returned hash →
  Git.getChecksum w directory p = (Returned hash, p).
Proof.
  intros Habs Hcwd Hdir Hout Hrows. unfold Git.getChecksum.
  erewrite bind_run; [|by apply executeInDirectory_ok].
  unfold lift_outcome. by rewrite Hrows.
Qed.

Lemma getUncommitedChanges_never_empty (directory : string) p changes p' :
  Git.getUncommitedChanges w directory p = (Returned changes, p') →
  changes ≠ [].
Proof.
  unfold Git.getUncommitedChanges. intros H.
  apply bind_returned_inv in H as ([stdout stderr] & p1 & _ & Hret).
  injection Hret as <- _. apply split_char_nonempty.
Qed.

Lemma getUncommitedChanges_archives (directory : string) p :
  printed (Git.getUncommitedChanges w directory p).2 = printed p ∧
  archives (Git.getUncommitedChanges w directory p).2 = archives p.
Proof.
  unfold Git.getUncommitedChanges, mbind, Py_bind.
  pose proof (executeInDirectory_archives directory ["git"; "status"; "-s"] p)
    as H.
  destruct (Git.executeInDirectory w directory _ p) as [[[stdout stderr]|c|e] p1];
    exact H.
Qed.

Lemma getUncommitedChanges_ok (directory : string) p stdout :
  os_path_isabs (cwd p) = true →
  os_path_isdir w (cwd p) = true →
  os_path_isdir w (os_path_join (cwd p) directory) = true →
  popen w (os_path_join (cwd p) directory) ["git"; "status"; "-s"]
    = Some stdout →
  Git.getUncommitedChanges w directory p
  = (Returned (PyStr.split_char "010" stdout), p).
Proof.
  intros Habs Hcwd Hdir Hout. unfold Git.getUncommitedChanges.
  erewrite bind_run; [|by apply executeInDirectory_ok]. done.
Qed.

End git_facts.

(** ** Facts about the top-level functions *)

Section package_facts.

Context (w : World).

Lemma for_each_print_run (lines : list string) p :
  for_each lines print p
  = (Returned tt, mkProc (cwd p) (printed p ++ lines) (archives p)).
Proof.
  revert p. induction lines as [|line lines IH]; intros p; cbn [for_each].
  - unfold mret, Py_ret. by rewrite app_nil_r, Proc_eta.
  - unfold mbind, Py_bind, print at 1. rewrite IH. cbn.
    by rewrite <- app_assoc.
Qed.

Lemma enforce_strict_run (directory : string) p :
  enforce_strict w directory p =
    match Git.getUncommitedChanges w directory p with
    | (Returned changes, p1) =>
        (SysExit 2,
         mkProc (cwd p1) (printed p1 ++ strict_listing directory changes)
           (archives p1))
    | (SysExit c, p1) => (SysExit c, p1)
    | (Raised e, p1) => (Raised e, p1)
    end.
Proof.
  unfold enforce_strict.
  destruct (Git.getUncommitedChanges w directory p) as [[changes|c|e] p1] eqn:Hg.
  - erewrite bind_run; [|exact Hg].
    apply getUncommitedChanges_never_empty in Hg.
    destruct changes as [|change changes]; [done|].
    cbn [length Nat.ltb Nat.leb].
    unfold mbind, Py_bind, print at 1 2. cbn [cwd printed archives].
    rewrite for_each_print_run. unfold print, sys_exit, strict_listing.
    cbn [cwd printed archives]. by rewrite <- !app_assoc.
  - by erewrite bind_exit.
  - by erewrite bind_raised.
Qed.

Lemma enforce_strict_never_returns (directory : string) p v p' :
  enforce_strict w directory p ≠ (Returned v, p').
Proof.
  rewrite enforce_strict_run.
  by destruct (Git.getUncommitedChanges w directory p) as [[changes|c|e] p1].
Qed.

Lemma enforce_strict_archives (directory : string) p :
  archives (enforce_strict w directory p).2 = archives p.
Proof.
  rewrite enforce_strict_run.
  pose proof (getUncommitedChanges_archives w directory p) as [_ H].
  by destruct (Git.getUncommitedChanges w directory p) as [[changes|c|e] p1].
Qed.

Lemma for_each_write_returned (files : list File) p p' z zs :
  archives p = z :: zs →
  for_each files
    (λ '(mkFile full_path relative_path),
       Packager.ZipFile_write w full_path relative_path) p
  = (Returned tt, p') →
  cwd p' = cwd p ∧ printed p' = printed p ∧
  archives p' =
    mkArchive (archive_cwd z) (archive_name z)
      (archive_members z ++ members_of files) :: zs.
Proof.
  revert p z. induction files as [|[a r] files IH]; intros p z Hz;
    cbn [for_each].
  - intros [= <-]. rewrite Hz. unfold members_of. cbn.
    rewrite app_nil_r. by destruct z.
  - intros H. apply bind_returned_inv in H as ([] & p1 & Hw & Hrest).
    unfold Packager.ZipFile_write in Hw. rewrite Hz in Hw.
    destruct (file_readable w _); [|done]. injection Hw as <-.
    eapply IH in Hrest; [|reflexivity]. cbn in Hrest.
    destruct Hrest as (-> & -> & ->). unfold members_of. cbn.
    by rewrite <- app_assoc.
Qed.

Lemma createZip_returned (filename : string) (files : list File) p p' :
  Packager.createZip w filename files p = (Returned tt, p') →
  cwd p' = cwd p ∧ printed p' = printed p ∧
  archives p' = mkArchive (cwd p) filename (members_of files) :: archives p.
Proof.
  unfold Packager.createZip. intros H.
  apply bind_returned_inv in H as ([] & p1 & Hopen & Hloop).
  unfold Packager.ZipFile_open in Hopen.
  destruct (zip_creatable w _); [|done]. injection Hopen as <-.
  eapply for_each_write_returned in Hloop; [|reflexivity]. exact Hloop.
Qed.

Lemma zip_filename_returned (source_directory : string) p name p' :
  os_path_isabs (cwd p) = true →
  zip_filename w source_directory p = (Returned name, p') →
  p' = p ∧
  ∃ stdout hash,
    popen w (os_path_join (cwd p) source_directory) ["git"; "show-ref"]
      = Some stdout ∧
    Git.getChecksum_rows (PyStr.split_char "010" stdout) = Returned hash ∧
    name = os_path_basename source_directory +:+ "-" +:+ hash +:+ ".zip".
Proof.
  intros Habs. unfold zip_filename. intros H.
  apply bind_returned_inv in H as (h1 & p1 & H1 & H).
  apply getChecksum_returned in H1 as [-> _]; [|done].
  apply bind_returned_inv in H as (h2 & p2 & H2 & H).
  apply getChecksum_returned in H2 as [-> (stdout & Hout & Hrows)]; [|done].
  injection H as <- <-. split; [done|]. by exists stdout, h2.
Qed.

Lemma zip_filename_archives (source_directory : string) p :
  archives (zip_filename w source_directory p).2 = archives p.
Proof.
  unfold zip_filename, mbind, Py_bind.
  pose proof (getChecksum_archives w source_directory p) as [_ H1].
  destruct (Git.getChecksum w source_directory p) as [[h1|c|e] p1];
    cbn in H1; [|done..].
  pose proof (getChecksum_archives w source_directory p1) as [_ H2].
  destruct (Git.getChecksum w source_directory p1) as [[h2|c|e] p2];
    cbn in H2 |- *; congruence.
Qed.

Lemma for_each_write_ok (files : list File) p z zs :
  archives p = z :: zs →
  (∀ f, f ∈ files →
        file_readable w (os_path_join (cwd p) (absolutePath f)) = true) →
  for_each files
    (λ '(mkFile full_path relative_path),
       Packager.ZipFile_write w full_path relative_path) p
  = (Returned tt,
     mkProc (cwd p) (printed p)
       (mkArchive (archive_cwd z) (archive_name z)
          (archive_members z ++ members_of files) :: zs)).
Proof.
  revert p z. induction files as [|[a r] files IH]; intros p z Hz Hread;
    cbn [for_each].
  - unfold mret, Py_ret, members_of. cbn. rewrite app_nil_r.
    destruct p, z. cbn in *. by rewrite Hz.
  - assert (Hw : Packager.ZipFile_write w a r p
                 = (Returned tt,
                    mkProc (cwd p) (printed p)
                      (mkArchive (archive_cwd z) (archive_name z)
                         (archive_members z ++ [(a, r)]) :: zs))).
    { pose proof (Hread (mkFile a r) ltac:(left)) as Hr. cbn in Hr.
      unfold Packager.ZipFile_write. by rewrite Hz, Hr. }
    erewrite bind_run; [|exact Hw].
    erewrite (IH _ (mkArchive (archive_cwd z) (archive_name z)
                      (archive_members z ++ [(a, r)]))); [|reflexivity|].
    + unfold members_of. cbn. by rewrite <- app_assoc.
    + intros f Hf. cbn. apply Hread. by right.
Qed.

Lemma createZip_ok (filename : string) (files : list File) p :
  zip_creatable w (os_path_join (cwd p) filename) = true →
  (∀ f, f ∈ files →
        file_readable w (os_path_join (cwd p) (absolutePath f)) = true) →
  Packager.createZip w filename files p
  = (Returned tt,
     mkProc (cwd p) (printed p)
       (mkArchive (cwd p) filename (members_of files) :: archives p)).
Proof.
  intros Hcreate Hread. unfold Packager.createZip.
  erewrite bind_run;
    [|unfold Packager.ZipFile_open; rewrite Hcreate; reflexivity].
  erewrite (for_each_write_ok _ _ (mkArchive (cwd p) filename []) (archives p));
    [reflexivity | reflexivity | exact Hread].
Qed.

(** X20.  A run without [--strict] succeeds when the directories exist,
    [git show-ref] names a [HEAD] row, the archive can be created and
    the members can be read: it writes one archive with the resolved
    members in order, prints one line naming it and leaves the working
    directory as it was. *)
Lemma package_succeeds (sources : string)
    (libraries exclude : option (list string)) p stdout hash :
  let name := os_path_basename sources +:+ "-" +:+ hash +:+ ".zip" in
  let files := resolved_members w (cwd p) sources libraries exclude in
  os_path_isabs (cwd p) = true →
  os_path_isdir w (cwd p) = true →
  os_path_isdir w (os_path_join (cwd p) sources) = true →
  os_path_exists w (abspath_at w (cwd p) sources) = true →
  popen w (os_path_join (cwd p) sources) ["git"; "show-ref"] = Some stdout →
  Git.getChecksum_rows (PyStr.split_char "010" stdout) = Returned hash →
  zip_creatable w (os_path_join (cwd p) name) = true →
  (∀ f, f ∈ files →
        file_readable w (os_path_join (cwd p) (absolutePath f)) = true) →
  package w false sources libraries exclude p
  = (Returned tt,
     mkProc (cwd p)
       (printed p ++ ["Created lambda zip file: " +:+ name])
       (mkArchive (cwd p) name (members_of files) :: archives p)).
Proof.
  intros name files Habs Hcwd Hdir Hexists Hout Hrows Hcreate Hread.
  pose proof (getChecksum_ok w sources p stdout hash Habs Hcwd Hdir Hout Hrows)
    as Hsum.
  unfold package.
  erewrite bind_run; [|reflexivity].
  erewrite bind_run; [|by rewrite files_to_package_run, Hexists].
  erewrite bind_run;
    [|unfold zip_filename;
      erewrite bind_run; [|exact Hsum];
      erewrite bind_run; [|exact Hsum]; reflexivity].
  erewrite bind_run; [|by apply createZip_ok].
  reflexivity.
Qed.

End package_facts.

(** ** The primitives on concrete inputs *)

Example split_char_empty : PyStr.split_char "010" "" = [""].
Proof. reflexivity. Qed.

Example split_char_status :
  PyStr.split_char "010" (" M handler.py" +:+ nl +:+ "?? notes.txt" +:+ nl)
  = [" M handler.py"; "?? notes.txt"; ""].
Proof. reflexivity. Qed.

Example split_ws_row :
  PyStr.split_ws "3f2a9c1 refs/remotes/origin/HEAD"
  = ["3f2a9c1"; "refs/remotes/origin/HEAD"].
Proof. reflexivity. Qed.

Example os_path_join_relative : os_path_join "/work" "fn" = "/work/fn".
Proof. reflexivity. Qed.

Example os_path_join_absolute : os_path_join "/work" "/srv/fn" = "/srv/fn".
Proof. reflexivity. Qed.

Example os_path_basename_plain : os_path_basename "/srv/myFunc" = "myFunc".
Proof. reflexivity. Qed.

Example os_path_basename_trailing_slash : os_path_basename "myFunc/" = "".
Proof. reflexivity. Qed.

Example getChecksum_rows_head :
  Git.getChecksum_rows (PyStr.split_char "010" demo_show_ref)
  = Returned "3f2a9c1d5e7b8a6f4c2d1e0f9a8b7c6d5e4f3a2b".
Proof. reflexivity. Qed.

Example getChecksum_rows_no_head :
  Git.getChecksum_rows
    (PyStr.split_char "010" ("3f2a9c1 refs/heads/master" +:+ nl))
  = Raised UnboundLocalError.
Proof. reflexivity. Qed.

Example demo_walk_is_below : walk_is_below demo_world "/work/fn".
Proof.
  intros root dirs files Hin. vm_compute in Hin.
  repeat (apply elem_of_cons in Hin as [[= -> -> ->] | Hin];
          [split; [first [by left | right; by eexists] |];
           split; [done|]; split; [reflexivity|];
           intros name Hname;
           repeat (apply elem_of_cons in Hname as [-> | Hname]; [reflexivity|]);
           by apply elem_of_nil in Hname |]).
  by apply elem_of_nil in Hin.
Qed.

(** The discovery of a concrete directory has no entry at the stripped
    relative path of [f]. *)
Ltac no_sibling_in_discovery :=
  let g := fresh "g" in
  let Hg := fresh "Hg" in
  let Hrel := fresh "Hrel" in
  intros (g & Hg & Hrel);
  apply elem_of_getFileList in Hg as [Hg _];
  vm_compute in Hg, Hrel;
  repeat (apply elem_of_cons in Hg as [-> | Hg]; [discriminate Hrel|]);
  by apply elem_of_nil in Hg.

(** * The claims *)

(** ** Deduplication (C2, C3, C4) *)

(** C2.  Whenever a file set holds a source entry with relative path [p]
    and, under the same root, the compiled entry whose relative path is
    [p] with the compiled suffix appended ([a.py] and [a.pyc]), the
    deduplicated set contains the source entry and does not contain the
    compiled entry. *)
Theorem deduplicate_drops_compiled_pair
    (fs : gset File) (root : string) (src cmp : File) :
  under_root root src →
  under_root root cmp →
  relativePath cmp = relativePath src +:+ "c" →
  is_compiled cmp = true →
  src ∈ fs →
  cmp ∈ fs →
  src ∈ Packager.deduplicateFileList fs ∧
  cmp ∉ Packager.deduplicateFileList fs.
Proof.
  intros Hsrc Hcmp Hrel Hc Hin_src Hin_cmp.
  unfold is_compiled in Hc. rewrite Hrel in Hc.
  assert (Hun : uncompiled_of cmp = src).
  { unfold uncompiled_of. rewrite Hcmp, Hrel.
    rewrite <- !append_assoc, !drop_last_snoc, !append_assoc, <- Hsrc.
    by destruct src. }
  rewrite !elem_of_deduplicateFileList. unfold redundant. split.
  - split; [done|]. intros [Hc' _]. unfold is_compiled in Hc'.
    by rewrite (endswith_pyc_source _ Hc) in Hc'.
  - intros [_ Hno]. apply Hno. unfold is_compiled.
    by rewrite Hun, Hrel.
Qed.

Lemma deduplicate_drops_compiled_pair_witness :
  mkFile "/work/fn/handler.py" "handler.py"
    ∈ Packager.deduplicateFileList (Packager.getFileList demo_world "/work/fn" None) ∧
  mkFile "/work/fn/handler.pyc" "handler.pyc"
    ∉ Packager.deduplicateFileList (Packager.getFileList demo_world "/work/fn" None).
Proof.
  apply (deduplicate_drops_compiled_pair _ "/work/fn");
    [reflexivity | reflexivity | reflexivity | reflexivity
    | vm_compute; reflexivity | vm_compute; reflexivity ].
Defined.

(** C3.  Deduplication never removes an entry whose source counterpart
    is absent from the same set: a compiled artifact with no entry of
    the set at its stripped relative path stays in the output, and an
    entry that is not a compiled artifact is never removed. *)
Theorem deduplicate_keeps_unpaired (fs : gset File) (f : File) :
  f ∈ fs →
  is_compiled f = false ∨ ¬ has_source_sibling fs f →
  f ∈ Packager.deduplicateFileList fs.
Proof.
  intros Hin Hkeep. apply deduplicateFileList_keeps; [done|].
  intros Hred. destruct Hkeep as [Hsrc | Hno].
  - destruct Hred as [Hc _]. congruence.
  - apply Hno. by apply redundant_has_sibling.
Qed.

Lemma deduplicate_keeps_unpaired_witness :
  mkFile "/work/fn/orphan.pyc" "orphan.pyc"
    ∈ Packager.deduplicateFileList (Packager.getFileList demo_world "/work/fn" None).
Proof.
  apply deduplicate_keeps_unpaired; [vm_compute; reflexivity|].
  right. no_sibling_in_discovery.
Defined.

(** C4.  On a file set with no compiled artifact whose source
    counterpart is in the set, deduplication is the identity; so for a
    directory without such duplicates the deduplicated discovery is the
    discovery itself. *)
Theorem deduplicate_identity_without_pairs (fs : gset File) :
  (∀ f, f ∈ fs → is_compiled f = true → ¬ has_source_sibling fs f) →
  Packager.deduplicateFileList fs = fs ∧
  ∀ (w : World) (path : string) (exclude : option (list string)),
    Packager.getFileList w path exclude = fs →
    Packager.getDeduplicatedFileList w path exclude = elements fs.
Proof.
  intros Hno.
  assert (Hid : Packager.deduplicateFileList fs = fs).
  { apply deduplicateFileList_id. intros f Hin [Hc Hred].
    apply (Hno f Hin Hc). by exists (uncompiled_of f). }
  split; [done|]. intros w path exclude <-.
  unfold Packager.getDeduplicatedFileList. by rewrite Hid.
Qed.

Lemma deduplicate_identity_without_pairs_witness :
  Packager.deduplicateFileList (Packager.getFileList demo_world "/work/libs" None)
  = Packager.getFileList demo_world "/work/libs" None.
Proof.
  apply deduplicate_identity_without_pairs.
  intros f Hf Hc. apply elem_of_getFileList in Hf as [Hf _].
  vm_compute in Hf.
  repeat (apply elem_of_cons in Hf as [-> | Hf]; [discriminate Hc|]).
  by apply elem_of_nil in Hf.
Defined.

(** ** Exclusion (C5, C10) *)

(** C5.  With a non-empty exclusion list, a discovered candidate is
    dropped exactly when its relative path starts with one of the rule
    strings; the test is a plain string prefix, blind to path segments:
    [libs/helper.py] is excluded by the rule [libs], and
    [libstuff/helper.py] is excluded by the rule [lib]. *)
Theorem exclusion_is_plain_prefix
    (w : World) (path : string) (exclude : list string) (f : File) :
  exclude ≠ [] →
  (truthy (Packager.shouldExclude f (Some exclude)) = true
   ↔ matches_rule exclude f) ∧
  (f ∈ candidates w path →
   (f ∉ Packager.getFileList w path (Some exclude) ↔ matches_rule exclude f)) ∧
  Packager.shouldExclude (mkFile "/r/libs/helper.py" "libs/helper.py")
    (Some ["libs"]) = Some true ∧
  Packager.shouldExclude (mkFile "/r/libstuff/helper.py" "libstuff/helper.py")
    (Some ["lib"]) = Some true.
Proof.
  intros _. split; [apply truthy_shouldExclude|]. split; [|done].
  intros Hcand. rewrite elem_of_getFileList, <- truthy_shouldExclude.
  destruct (truthy (Packager.shouldExclude f (Some exclude))); intuition congruence.
Qed.

Lemma exclusion_is_plain_prefix_witness :
  mkFile "/work/fn/pkg/util.py" "pkg/util.py"
    ∉ Packager.getFileList demo_world "/work/fn" (Some ["p"]).
Proof.
  apply (exclusion_is_plain_prefix demo_world "/work/fn" ["p"]);
    [discriminate | vm_compute; by repeat constructor |].
  exists "p". split; [by left | reflexivity].
Defined.

(** C10.  An exclusion list that contains the empty string excludes
    every file, so discovery under it is empty; an absent or an empty
    exclusion list excludes nothing. *)
Theorem empty_rule_excludes_everything
    (w : World) (path : string) (exclude : list string) (f : File) :
  "" ∈ exclude →
  Packager.shouldExclude f (Some exclude) = Some true ∧
  Packager.getFileList w path (Some exclude) = ∅ ∧
  Packager.shouldExclude f None = Some false ∧
  Packager.shouldExclude f (Some []) = Some false ∧
  Packager.getFileList w path None = list_to_set (candidates w path) ∧
  Packager.getFileList w path (Some []) = list_to_set (candidates w path).
Proof.
  intros Hin.
  assert (Hall : ∀ g, Packager.shouldExclude g (Some exclude) = Some true).
  { intros g. destruct exclude as [|pattern exclude]; [by apply elem_of_nil in Hin|].
    change (Packager.shouldExclude g (Some (pattern :: exclude)))
      with (Packager.shouldExclude_loop g (pattern :: exclude)).
    destruct (shouldExclude_loop_cases g (pattern :: exclude))
      as [[-> _] | [_ Hno]]; [done|].
    destruct Hno. exists "". split; [done | apply startswith_empty]. }
  split; [apply Hall|]. split.
  { apply set_eq. intros g. rewrite elem_of_getFileList, Hall, elem_of_empty.
    cbn. intuition congruence. }
  split; [done|]. split; [done|].
  split; [apply getFileList_absent | apply getFileList_empty].
Qed.

Lemma empty_rule_excludes_everything_witness :
  Packager.getFileList demo_world "/work/fn" (Some [""]) = ∅ ∧
  Packager.getFileList demo_world "/work/fn" None
  = list_to_set (candidates demo_world "/work/fn").
Proof.
  destruct (empty_rule_excludes_everything demo_world "/work/fn" [""]
              (mkFile "/work/fn/handler.py" "handler.py"))
    as (_ & Hnone & _ & _ & Hall & _); [by left|].
  split; [exact Hnone | exact Hall].
Defined.

(** ** Resolution of the member list (C7, C9) *)

Lemma getDeduplicatedFileList_enumerates (w : World)
    (exclude : option (list string)) (directory : string) :
  enumerates w exclude directory
    (Packager.getDeduplicatedFileList w directory exclude).
Proof.
  unfold enumerates, Packager.getDeduplicatedFileList. split.
  - apply NoDup_elements.
  - intros f. apply elem_of_elements.
Qed.

(** C7.  The resolved member list is the deduplicated discovery of the
    primary directory followed by one group per library directory, each
    the deduplicated discovery of that directory alone, in the order
    the library directories were supplied. *)
Theorem members_primary_then_libraries
    (w : World) (sources : string) (libraries exclude : option (list string))
    (p : Proc) :
  os_path_exists w (abspath_at w (cwd p) sources) = true →
  ∃ (primary : list File) (groups : list (list File)),
    files_to_package w sources libraries exclude p
    = (Returned (primary ++ mjoin groups), p) ∧
    enumerates w exclude (abspath_at w (cwd p) sources) primary ∧
    Forall2 (λ library group,
               enumerates w exclude (abspath_at w (cwd p) library) group)
            (default [] libraries) groups.
Proof.
  intros Hexists. rewrite files_to_package_run, Hexists.
  eexists _, _. split; [reflexivity|].
  split; [apply getDeduplicatedFileList_enumerates|].
  apply Forall2_fmap_r, Forall_Forall2_diag, Forall_forall.
  intros library _. apply getDeduplicatedFileList_enumerates.
Qed.

Lemma members_primary_then_libraries_witness :
  ∃ (primary : list File) (groups : list (list File)),
    files_to_package demo_world "fn" (Some ["libs"]) None demo_proc
    = (Returned (primary ++ mjoin groups), demo_proc) ∧
    enumerates demo_world None "/work/fn" primary ∧
    Forall2 (λ library group,
               enumerates demo_world None
                 (abspath_at demo_world "/work" library) group)
            ["libs"] groups.
Proof.
  apply (members_primary_then_libraries demo_world "fn" (Some ["libs"]) None
           demo_proc).
  vm_compute. reflexivity.
Defined.

(** C9.  Deduplication looks at one root at a time: a compiled artifact
    found under any root, primary or library, whose source counterpart
    is not in the file set of that same root is in the final member
    list, whatever the other roots contain. *)
Theorem deduplication_is_per_root
    (w : World) (sources : string) (libraries exclude : option (list string))
    (p p' : Proc) (members : list File) (directory : string) (f : File) :
  files_to_package w sources libraries exclude p = (Returned members, p') →
  directory ∈ abspath_at w (cwd p) sources
              :: (abspath_at w (cwd p) <$> default [] libraries) →
  f ∈ Packager.getFileList w directory exclude →
  is_compiled f = true →
  ¬ has_source_sibling (Packager.getFileList w directory exclude) f →
  f ∈ members.
Proof.
  intros Hrun Hdir Hin Hc Hno.
  assert (Hkept : f ∈ Packager.getDeduplicatedFileList w directory exclude).
  { apply elem_of_elements, deduplicateFileList_keeps; [done|].
    intros Hred. apply Hno. by apply redundant_has_sibling. }
  rewrite files_to_package_run in Hrun.
  destruct (os_path_exists w _); [|done]. injection Hrun as <- _.
  unfold resolved_members. apply elem_of_app.
  apply elem_of_cons in Hdir as [-> | Hdir]; [by left | right].
  apply list_elem_of_fmap in Hdir as (library & -> & Hlib).
  apply list_elem_of_join. eexists. split; [exact Hkept|].
  apply list_elem_of_fmap. by exists library.
Qed.

Lemma deduplication_is_per_root_witness :
  mkFile "/work/fn/orphan.pyc" "orphan.pyc"
    ∈ resolved_members demo_world "/work" "fn" (Some ["libs"]) None.
Proof.
  apply (deduplication_is_per_root demo_world "fn" (Some ["libs"]) None
           demo_proc demo_proc _ "/work/fn");
    [vm_compute; reflexivity | by left | vm_compute; reflexivity
    | reflexivity | no_sibling_in_discovery ].
Defined.

(** ** Naming of the archive *)

(** A run that succeeds has written one archive, in the working
    directory the run started in, named
    [<basename of the source directory>-<revision>.zip], where the
    revision is what [Git.getChecksum] reads for the source directory:
    the identifier on the [HEAD] row of [git show-ref].  A run in which
    no revision can be obtained does not succeed and writes no
    archive. *)
Theorem archive_named_after_revision
    (w : World) (strict : bool) (sources : string)
    (libraries exclude : option (list string)) (p0 : Proc) :
  os_path_isabs (cwd p0) = true →
  (∀ p1, package w strict sources libraries exclude p0 = (Returned tt, p1) →
     ∃ stdout hash,
       popen w (os_path_join (cwd p0) sources) ["git"; "show-ref"]
         = Some stdout ∧
       Git.getChecksum_rows (PyStr.split_char "010" stdout) = Returned hash ∧
       archives p1 =
         mkArchive (cwd p0)
           (os_path_basename sources +:+ "-" +:+ hash +:+ ".zip")
           (members_of
              (resolved_members w (cwd p0) sources libraries exclude))
         :: archives p0) ∧
  ((∀ hash p', Git.getChecksum w sources p0 ≠ (Returned hash, p')) →
   (∀ v p1, package w strict sources libraries exclude p0 ≠ (Returned v, p1)) ∧
   archives (package w strict sources libraries exclude p0).2 = archives p0).
Proof.
  intros Habs. split.
  - intros p1 Hrun. unfold package in Hrun.
    apply bind_returned_inv in Hrun as ([] & pa & Hstrict & Hrun).
    destruct strict; [by apply enforce_strict_never_returns in Hstrict|].
    injection Hstrict as <-.
    apply bind_returned_inv in Hrun as (files & pb & Hfiles & Hrun).
    rewrite files_to_package_run in Hfiles.
    destruct (os_path_exists w _); [|done]. injection Hfiles as <- <-.
    apply bind_returned_inv in Hrun as (name & pc & Hname & Hrun).
    apply zip_filename_returned in Hname
      as [-> (stdout & hash & Hout & Hrows & ->)]; [|done].
    apply bind_returned_inv in Hrun as ([] & pd & Hzip & Hprint).
    apply createZip_returned in Hzip as (_ & _ & Harch).
    injection Hprint as <-. cbn [archives]. eauto.
  - intros Hfail.
    assert (Hzip : ∀ name p1, zip_filename w sources p0 ≠ (Returned name, p1)).
    { intros name p1 H. unfold zip_filename in H.
      apply bind_returned_inv in H as (h & p2 & H & _). by apply Hfail in H. }
    unfold package, mbind, Py_bind. destruct strict.
    + pose proof (enforce_strict_archives w sources p0) as Harch.
      destruct (enforce_strict w sources p0) as [[v|c|e] pa] eqn:He;
        [by apply enforce_strict_never_returns in He
        | split; [intros ?? [=] | exact Harch]..].
    + change ((mret tt : Py unit) p0) with (Returned tt, p0). cbv beta iota.
      rewrite files_to_package_run.
      destruct (os_path_exists w _); [|split; [intros ?? [=] | reflexivity]].
      pose proof (zip_filename_archives w sources p0) as Harch.
      destruct (zip_filename w sources p0) as [[name|c|e] pc] eqn:Hz;
        [by destruct (Hzip name pc) | split; [intros ?? [=] | exact Harch]..].
Qed.

Lemma archive_named_after_revision_witness :
  ∃ stdout hash,
    popen demo_world "/work/fn" ["git"; "show-ref"] = Some stdout ∧
    Git.getChecksum_rows (PyStr.split_char "010" stdout) = Returned hash ∧
    archives (package demo_world false "fn" (Some ["libs"]) None demo_proc).2 =
      [mkArchive "/work" ("fn" +:+ "-" +:+ hash +:+ ".zip")
         (members_of
            (resolved_members demo_world "/work" "fn" (Some ["libs"]) None))].
Proof.
  apply (proj1 (archive_named_after_revision demo_world false "fn"
                  (Some ["libs"]) None demo_proc eq_refl)).
  vm_compute. reflexivity.
Defined.

(** ** Where the script departs from its specification (C1, C6, C8) *)

(** In strict mode no run ever reaches discovery: [getUncommitedChanges]
    never returns an empty list, so [enforce_strict] never returns. *)
Lemma strict_mode_never_packages
    (w : World) (sources : string) (libraries exclude : option (list string))
    (p : Proc) (v : unit) (p' : Proc) :
  package w true sources libraries exclude p ≠ (Returned v, p').
Proof.
  unfold package. intros H.
  apply bind_returned_inv in H as ([] & pa & Hstrict & _).
  by apply enforce_strict_never_returns in Hstrict.
Qed.

(** C1, as the script behaves.  In strict mode, when [git status -s]
    prints nothing for the source directory (a clean tree),
    [Git.getUncommitedChanges] returns the one-element list [['']], not
    an empty list, and the run exits with code 2 after printing the
    listing, before any discovery and with no archive written. *)
Theorem strict_mode_rejects_clean_tree
    (w : World) (sources : string) (libraries exclude : option (list string))
    (p : Proc) :
  os_path_isabs (cwd p) = true →
  os_path_isdir w (cwd p) = true →
  os_path_isdir w (os_path_join (cwd p) sources) = true →
  popen w (os_path_join (cwd p) sources) ["git"; "status"; "-s"] = Some "" →
  Git.getUncommitedChanges w sources p = (Returned [""], p) ∧
  package w true sources libraries exclude p
  = (SysExit 2,
     mkProc (cwd p) (printed p ++ strict_listing sources [""]) (archives p)).
Proof.
  intros Habs Hcwd Hdir Hout.
  pose proof (getUncommitedChanges_ok w sources p "" Habs Hcwd Hdir Hout) as Hg.
  split; [exact Hg|].
  unfold package. apply bind_exit. by rewrite enforce_strict_run, Hg.
Qed.

Lemma strict_mode_rejects_clean_tree_witness :
  Git.getUncommitedChanges demo_world "fn" demo_proc
  = (Returned [""], demo_proc) ∧
  package demo_world true "fn" (Some ["libs"]) None demo_proc
  = (SysExit 2,
     mkProc "/work"
       ["Error: Refusing to package fn";
        "There are uncommited changes:";
        "";
        "Please commit changes and run again, or disable strict mode."]
       []).
Proof.
  apply (strict_mode_rejects_clean_tree demo_world "fn" (Some ["libs"]) None
           demo_proc); reflexivity.
Defined.

(** The guard of [files_to_package] covers the source directory: when it
    does not exist the run exits with code 1 and writes no archive. *)
Lemma missing_source_exits
    (w : World) (sources : string) (libraries exclude : option (list string))
    (p : Proc) :
  os_path_exists w (abspath_at w (cwd p) sources) = false →
  files_to_package w sources libraries exclude p = (SysExit 1, p) ∧
  package w false sources libraries exclude p = (SysExit 1, p).
Proof.
  intros Hmissing.
  assert (Hfiles : files_to_package w sources libraries exclude p
                   = (SysExit 1, p)).
  { by rewrite files_to_package_run, Hmissing. }
  split; [exact Hfiles|].
  unfold package. erewrite bind_run; [|reflexivity]. by apply bind_exit.
Qed.

(** C6, as the script behaves.  No such guard covers the library
    directories: with an existing source directory [fn] and a library
    directory [missing] that does not exist, the run does not abort; the
    missing directory contributes no member and the archive is written
    from the source directory alone. *)
Theorem missing_library_is_skipped :
  os_path_exists demo_world "/work/missing" = false ∧
  files_to_package demo_world "fn" (Some ["missing"]) None demo_proc
  = (Returned (Packager.getDeduplicatedFileList demo_world "/work/fn" None),
     demo_proc) ∧
  package demo_world false "fn" (Some ["missing"]) None demo_proc
  = (Returned tt,
     mkProc "/work"
       ["Created lambda zip file: fn-3f2a9c1d5e7b8a6f4c2d1e0f9a8b7c6d5e4f3a2b.zip"]
       [mkArchive "/work" "fn-3f2a9c1d5e7b8a6f4c2d1e0f9a8b7c6d5e4f3a2b.zip"
          [("/work/fn/orphan.pyc", "orphan.pyc");
           ("/work/fn/handler.py", "handler.py");
           ("/work/fn/pkg/util.py", "pkg/util.py")]]).
Proof. repeat split; vm_compute; reflexivity. Qed.

(** C8, as the script behaves.  The revision in the archive name is not
    the short identifier of the reference currently checked out.  In a
    clone whose checked-out branch is one commit ahead of the remote's
    [HEAD], [Git.getChecksum] returns the full object id on the row of
    [refs/remotes/origin/HEAD], the first row of [git show-ref] that
    contains [HEAD], and the successful run names the archive after it;
    given the source directory as [myFunc/] the same run names the
    archive with an empty base name; and in a repository with no remote,
    where no row contains [HEAD], the run ends in [UnboundLocalError]
    although a reference is checked out. *)
Theorem revision_is_not_the_checked_out_reference :
  spec_revisionOf ahead_repo = Some "7ed9c0a" ∧
  Git.getChecksum (repo_world ahead_repo) "myFunc" demo_proc
  = (Returned "44830f1e2d3c4b5a69788796a5b4c3d2e1f00112", demo_proc) ∧
  package (repo_world ahead_repo) false "myFunc" None None demo_proc
  = (Returned tt,
     mkProc "/work"
       ["Created lambda zip file: myFunc-44830f1e2d3c4b5a69788796a5b4c3d2e1f00112.zip"]
       [mkArchive "/work"
          "myFunc-44830f1e2d3c4b5a69788796a5b4c3d2e1f00112.zip"
          [("/work/myFunc/handler.py", "handler.py")]]) ∧
  package (repo_world ahead_repo) false "myFunc/" None None demo_proc
  = (Returned tt,
     mkProc "/work"
       ["Created lambda zip file: -44830f1e2d3c4b5a69788796a5b4c3d2e1f00112.zip"]
       [mkArchive "/work"
          "-44830f1e2d3c4b5a69788796a5b4c3d2e1f00112.zip"
          [("/work/myFunc/handler.py", "handler.py")]]) ∧
  spec_revisionOf local_repo = Some "7ed9c0a" ∧
  package (repo_world local_repo) false "myFunc" None None demo_proc
  = (Raised UnboundLocalError, demo_proc).
Proof. repeat split; vm_compute; reflexivity. Qed.

(** * Further properties of the script *)

(** ** Splitting the output of [git] *)

Section split_facts.

Lemma split_char_join (sep : ascii) (s : string) :
  join_char sep (PyStr.split_char sep s) = s.
Proof.
  induction s as [|c s IH]; [done|]. cbn [PyStr.split_char].
  destruct (Ascii.eqb c sep) eqn:Hc.
  - apply Ascii.eqb_eq in Hc as ->.
    pose proof (split_char_nonempty sep s) as Hne.
    cbn [join_char]. destruct (PyStr.split_char sep s) as [|f fs]; [done|].
    by rewrite IH.
  - destruct (PyStr.split_char sep s) as [|f fs] eqn:Hs.
    + by apply split_char_nonempty in Hs.
    + cbn [join_char] in *. destruct fs; by rewrite <- IH.
Qed.

Lemma split_char_length (sep : ascii) (s : string) :
  length (PyStr.split_char sep s) = S (count_char sep s).
Proof.
  induction s as [|c s IH]; [done|]. cbn [PyStr.split_char count_char].
  destruct (Ascii.eqb c sep); cbn [length]; [by rewrite IH|].
  destruct (PyStr.split_char sep s) as [|f fs] eqn:Hs;
    [by apply split_char_nonempty in Hs | exact IH].
Qed.

Lemma split_char_fields (sep : ascii) (s : string) :
  Forall (λ field, PyStr.has_char sep field = false) (PyStr.split_char sep s).
Proof.
  induction s as [|c s IH]; [by repeat constructor|].
  cbn [PyStr.split_char]. destruct (Ascii.eqb c sep) eqn:Hc.
  - by constructor.
  - destruct (PyStr.split_char sep s) as [|f fs] eqn:Hs;
      [by apply split_char_nonempty in Hs|].
    apply Forall_cons in IH as [Hf Hfs]. constructor; [|done].
    cbn [PyStr.has_char]. rewrite Hf, orb_false_r.
    rewrite Ascii.eqb_sym. exact Hc.
Qed.

Lemma split_ws_unfold (c : ascii) (s : string) :
  PyStr.split_ws (String c s) =
    if PyStr.is_space c then PyStr.split_ws s
    else match s with
         | EmptyString => [String c EmptyString]
         | String c' _ =>
             if PyStr.is_space c' then String c EmptyString :: PyStr.split_ws s
             else match PyStr.split_ws s with
                  | tok :: toks => String c tok :: toks
                  | [] => [String c EmptyString]
                  end
         end.
Proof. by destruct s. Qed.

Lemma split_ws_tokens (s : string) :
  Forall (λ tok, tok ≠ EmptyString ∧ has_space tok = false) (PyStr.split_ws s).
Proof.
  induction s as [|c s IH]; [constructor|]. rewrite split_ws_unfold.
  destruct (PyStr.is_space c) eqn:Hc; [done|].
  assert (Hone : Forall (λ tok, tok ≠ EmptyString ∧ has_space tok = false)
                   [String c EmptyString]).
  { repeat constructor; [done|]. cbn. by rewrite Hc. }
  destruct s as [|c' s']; [done|].
  destruct (PyStr.is_space c'); [by apply Forall_app_2 with (l1 := [_])|].
  destruct (PyStr.split_ws (String c' s')) as [|tok toks]; [done|].
  apply Forall_cons in IH as [[_ Htok] Htoks]. constructor; [|done].
  split; [done|]. cbn. by rewrite Hc, Htok.
Qed.

Lemma split_ws_nonspace_first (c : ascii) (s : string) :
  PyStr.is_space c = false → PyStr.split_ws (String c s) ≠ [].
Proof.
  intros Hc. rewrite split_ws_unfold, Hc.
  destruct s as [|c' s']; [done|].
  destruct (PyStr.is_space c'); [done|].
  by destruct (PyStr.split_ws (String c' s')).
Qed.

Lemma split_ws_nonspace (pre : string) (c : ascii) (rest : string) :
  PyStr.is_space c = false →
  PyStr.split_ws (pre +:+ String c rest) ≠ [].
Proof.
  intros Hc. induction pre as [|x pre IH].
  - by apply split_ws_nonspace_first.
  - rewrite append_cons. destruct (PyStr.is_space x) eqn:Hx.
    + by rewrite split_ws_unfold, Hx.
    + by apply split_ws_nonspace_first.
Qed.

Lemma split_ws_head_row (row : string) :
  PyStr.contains row "HEAD" = true → PyStr.split_ws row ≠ [].
Proof.
  intros (pre & post & ->)%contains_spec.
  by apply split_ws_nonspace.
Qed.

End split_facts.

(** ** [class Git] *)

(** X1.  [Git.executeInDirectory] run from an absolute working directory
    and returning normally leaves the process as it found it (the
    working directory is restored) and returns the standard output of
    the command run in [directory], resolved against the working
    directory, with [None] for the standard error. *)
Theorem executeInDirectory_restores_cwd
    (w : World) (directory : string) (cmd : list string)
    (p p' : Proc) (out : string * option string) :
  os_path_isabs (cwd p) = true →
  Git.executeInDirectory w directory cmd p = (Returned out, p') →
  p' = p ∧
  os_path_isdir w (os_path_join (cwd p) directory) = true ∧
  popen w (os_path_join (cwd p) directory) cmd = Some out.1 ∧
  out.2 = None.
Proof.
  intros Habs Hrun.
  pose proof (executeInDirectory_returned w directory cmd p out p' Habs Hrun)
    as [-> (stdout & -> & Hout)].
  rewrite executeInDirectory_unfold in Hrun. cbn zeta in Hrun.
  destruct (os_path_isdir w (os_path_join (cwd p) directory)); done.
Qed.

Lemma executeInDirectory_restores_cwd_witness :
  demo_proc = demo_proc ∧
  os_path_isdir demo_world "/work/fn" = true ∧
  popen demo_world "/work/fn" ["git"; "status"; "-s"] = Some EmptyString ∧
  (None : option string) = None.
Proof.
  apply (executeInDirectory_restores_cwd demo_world "fn" ["git"; "status"; "-s"]
           demo_proc demo_proc (EmptyString, None));
    vm_compute; reflexivity.
Defined.

Lemma getChecksum_rows_cases (rows : list string) :
  (Forall (λ row, PyStr.contains row "HEAD" = false) rows ∧
   Git.getChecksum_rows rows = Raised UnboundLocalError) ∨
  (Exists (λ row, PyStr.contains row "HEAD" = true) rows ∧
   ∃ hash, Git.getChecksum_rows rows = Returned hash ∧
           hash ≠ EmptyString ∧ has_space hash = false).
Proof.
  induction rows as [|row rows IH]; cbn [Git.getChecksum_rows].
  - left. by split.
  - destruct (PyStr.contains row "HEAD") eqn:Hrow.
    + right. split; [by left|].
      pose proof (split_ws_head_row row Hrow) as Hne.
      pose proof (split_ws_tokens row) as Htok.
      destruct (PyStr.split_ws row) as [|tok toks]; [done|].
      apply Forall_cons in Htok as [[? ?] _]. by exists tok.
    + destruct IH as [[Hall ->] | [Hsome Hhash]].
      * left. split; [by constructor | done].
      * right. split; [by right | done].
Qed.

(** X3.  With [git show-ref] runnable in the directory, [Git.getChecksum]
    has two outcomes and in both leaves the process unchanged: when no
    row of the output contains [HEAD] it raises [UnboundLocalError];
    when some row does it returns a token that is not empty and holds
    no whitespace.  It never raises [IndexError]. *)
Theorem getChecksum_outcomes
    (w : World) (directory : string) (p : Proc) (stdout : string) :
  os_path_isabs (cwd p) = true →
  os_path_isdir w (cwd p) = true →
  os_path_isdir w (os_path_join (cwd p) directory) = true →
  popen w (os_path_join (cwd p) directory) ["git"; "show-ref"] = Some stdout →
  (Forall (λ row, PyStr.contains row "HEAD" = false)
     (PyStr.split_char "010" stdout) ∧
   Git.getChecksum w directory p = (Raised UnboundLocalError, p)) ∨
  (Exists (λ row, PyStr.contains row "HEAD" = true)
     (PyStr.split_char "010" stdout) ∧
   ∃ hash, Git.getChecksum w directory p = (Returned hash, p) ∧
           hash ≠ EmptyString ∧ has_space hash = false).
Proof.
  intros Habs Hcwd Hdir Hout.
  assert (Hrun : Git.getChecksum w directory p
                 = (Git.getChecksum_rows (PyStr.split_char "010" stdout), p)).
  { unfold Git.getChecksum.
    erewrite bind_run; [|by apply executeInDirectory_ok]. done. }
  rewrite Hrun.
  destruct (getChecksum_rows_cases (PyStr.split_char "010" stdout))
    as [[Hall ->] | [Hsome (hash & -> & Hne & Hsp)]].
  - by left.
  - right. split; [done|]. by exists hash.
Qed.

Lemma getChecksum_outcomes_witness :
  (Forall (λ row, PyStr.contains row "HEAD" = false)
     (PyStr.split_char "010" demo_show_ref) ∧
   Git.getChecksum demo_world "fn" demo_proc
   = (Raised UnboundLocalError, demo_proc)) ∨
  (Exists (λ row, PyStr.contains row "HEAD" = true)
     (PyStr.split_char "010" demo_show_ref) ∧
   ∃ hash, Git.getChecksum demo_world "fn" demo_proc
           = (Returned hash, demo_proc) ∧
           hash ≠ EmptyString ∧ has_space hash = false).
Proof.
  apply (getChecksum_outcomes demo_world "fn" demo_proc demo_show_ref);
    reflexivity.
Defined.

(** X4.  The revision [Git.getChecksum] reads is the first
    whitespace-separated token of the first row that contains [HEAD]:
    rows before it that do not contain [HEAD] are skipped, rows after it
    are never looked at. *)
Theorem getChecksum_rows_first_head (pre : list string) (row : string)
    (post : list string) :
  Forall (λ r, PyStr.contains r "HEAD" = false) pre →
  PyStr.contains row "HEAD" = true →
  ∃ hash, head (PyStr.split_ws row) = Some hash ∧
          Git.getChecksum_rows (pre ++ row :: post) = Returned hash.
Proof.
  intros Hpre Hrow. induction Hpre as [|r pre Hr Hpre IH].
  - cbn. rewrite Hrow. pose proof (split_ws_head_row row Hrow).
    destruct (PyStr.split_ws row) as [|tok toks]; [done|]. by exists tok.
  - cbn [app Git.getChecksum_rows]. by rewrite Hr.
Qed.

Lemma getChecksum_rows_first_head_witness :
  ∃ hash,
    head (PyStr.split_ws "1b2c refs/remotes/origin/HEAD") = Some hash ∧
    Git.getChecksum_rows
      (["9f8e refs/heads/master"] ++
       "1b2c refs/remotes/origin/HEAD" :: ["7a7a refs/tags/HEAD-old"])
    = Returned hash.
Proof.
  apply getChecksum_rows_first_head; [by repeat constructor | reflexivity].
Defined.

(** X5.  The records [Git.getUncommitedChanges] returns are the fields
    of the status output between newlines: joining them with newlines
    gives the output back, no record holds a newline, and there is one
    record more than the output has newlines, so the list is never
    empty and an output that ends in a newline yields a last record
    that is empty. *)
Theorem getUncommitedChanges_records
    (w : World) (directory : string) (p p' : Proc) (changes : list string) :
  os_path_isabs (cwd p) = true →
  Git.getUncommitedChanges w directory p = (Returned changes, p') →
  p' = p ∧
  ∃ stdout,
    popen w (os_path_join (cwd p) directory) ["git"; "status"; "-s"]
      = Some stdout ∧
    join_char "010" changes = stdout ∧
    length changes = S (count_char "010" stdout) ∧
    Forall (λ change, PyStr.has_char "010" change = false) changes.
Proof.
  intros Habs Hrun. unfold Git.getUncommitedChanges in Hrun.
  apply bind_returned_inv in Hrun as ([stdout stderr] & p1 & Hexec & Hret).
  apply executeInDirectory_returned in Hexec as [-> (s & [= -> ->] & Hout)];
    [|done].
  injection Hret as <- <-. split; [done|]. exists s.
  split; [done|]. split; [apply split_char_join|].
  split; [apply split_char_length | apply split_char_fields].
Qed.

Lemma getUncommitedChanges_records_witness :
  demo_proc = demo_proc ∧
  ∃ stdout,
    popen demo_world "/work/fn" ["git"; "status"; "-s"] = Some stdout ∧
    join_char "010" [EmptyString] = stdout ∧
    length [EmptyString] = S (count_char "010" stdout) ∧
    Forall (λ change, PyStr.has_char "010" change = false) [EmptyString].
Proof.
  apply (getUncommitedChanges_records demo_world "fn" demo_proc demo_proc
           [EmptyString]); reflexivity.
Defined.

(** ** Strict mode *)

(** X6.  In strict mode, whatever [git status -s] prints for the source
    directory, the run prints the refusal, one line per record of the
    output, and the hint, then exits with code 2; the working directory
    and the archives are as before. *)
Theorem strict_mode_always_exits
    (w : World) (sources : string) (libraries exclude : option (list string))
    (p : Proc) (stdout : string) :
  os_path_isabs (cwd p) = true →
  os_path_isdir w (cwd p) = true →
  os_path_isdir w (os_path_join (cwd p) sources) = true →
  popen w (os_path_join (cwd p) sources) ["git"; "status"; "-s"]
    = Some stdout →
  package w true sources libraries exclude p
  = (SysExit 2,
     mkProc (cwd p)
       (printed p ++ strict_listing sources (PyStr.split_char "010" stdout))
       (archives p)).
Proof.
  intros Habs Hcwd Hdir Hout.
  pose proof (getUncommitedChanges_ok w sources p stdout Habs Hcwd Hdir Hout)
    as Hg.
  unfold package. apply bind_exit. by rewrite enforce_strict_run, Hg.
Qed.

Lemma strict_mode_always_exits_witness :
  package demo_world true "fn" None None demo_proc
  = (SysExit 2,
     mkProc "/work"
       ([] ++ strict_listing "fn" (PyStr.split_char "010" EmptyString))
       []).
Proof.
  apply (strict_mode_always_exits demo_world "fn" None None demo_proc
           EmptyString); reflexivity.
Defined.

(** X7.  A run in strict mode never returns normally and never writes
    an archive, in any environment. *)
Theorem strict_run_writes_nothing
    (w : World) (sources : string) (libraries exclude : option (list string))
    (p : Proc) :
  (∀ v p', package w true sources libraries exclude p ≠ (Returned v, p')) ∧
  archives (package w true sources libraries exclude p).2 = archives p.
Proof.
  split.
  - intros v p' H. unfold package in H.
    apply bind_returned_inv in H as ([] & pa & Hstrict & _).
    by apply enforce_strict_never_returns in Hstrict.
  - unfold package, mbind, Py_bind.
    pose proof (enforce_strict_archives w sources p) as Harch.
    destruct (enforce_strict w sources p) as [[v|c|e] pa] eqn:He;
      [by apply enforce_strict_never_returns in He | exact Harch..].
Qed.

(** X8.  With [--strict] the status query runs before the existence
    check: when the source directory is not a directory the run ends in
    [OSError] from [os.chdir], not in exit code 1, with the process
    unchanged. *)
Theorem strict_mode_missing_source_raises
    (w : World) (sources : string) (libraries exclude : option (list string))
    (p : Proc) :
  os_path_isdir w (os_path_join (cwd p) sources) = false →
  package w true sources libraries exclude p = (Raised OSError, p).
Proof.
  intros Hdir.
  assert (Hexec : Git.executeInDirectory w sources ["git"; "status"; "-s"] p
                  = (Raised OSError, p)).
  { rewrite executeInDirectory_unfold. cbn zeta. by rewrite Hdir. }
  unfold package. apply bind_raised.
  rewrite enforce_strict_run. unfold Git.getUncommitedChanges.
  by erewrite bind_raised.
Qed.

Lemma strict_mode_missing_source_raises_witness :
  package demo_world true "missing" None None demo_proc
  = (Raised OSError, demo_proc).
Proof.
  apply (strict_mode_missing_source_raises demo_world "missing" None None
           demo_proc); reflexivity.
Defined.

(** ** Deduplication *)

Lemma drop_last_pyc (s : string) :
  PyStr.endswith s ".pyc" = true →
  PyStr.endswith (PyStr.drop_last s) ".pyc" = false.
Proof.
  intros Hs. pose proof Hs as [pre ->]%endswith_spec.
  change ".pyc" with (".py" +:+ "c") in Hs |- * at 1.
  rewrite <- append_assoc in Hs |- *. rewrite drop_last_snoc.
  by apply endswith_pyc_source.
Qed.

(** X9.  Deduplicating twice is deduplicating once. *)
Theorem deduplicateFileList_idempotent (fs : gset File) :
  Packager.deduplicateFileList (Packager.deduplicateFileList fs)
  = Packager.deduplicateFileList fs.
Proof.
  apply deduplicateFileList_id. intros f Hf [Hc Hun].
  apply elem_of_deduplicateFileList in Hf as [_ Hno].
  apply elem_of_deduplicateFileList in Hun as [Hun _].
  apply Hno. by split.
Qed.

(** X10.  Deduplication never adds an entry, and what it removes is
    backed by what it keeps: every entry it drops is a compiled
    artifact, and the entry with both paths stripped of their last
    character is in the result. *)
Theorem deduplicateFileList_removed_has_source (fs : gset File) :
  Packager.deduplicateFileList fs ⊆ fs ∧
  ∀ f, f ∈ fs → f ∉ Packager.deduplicateFileList fs →
       is_compiled f = true ∧
       uncompiled_of f ∈ Packager.deduplicateFileList fs.
Proof.
  split; [apply deduplicateFileList_subseteq|].
  intros f Hin Hout.
  assert (Hred : redundant fs f).
  { unfold redundant. destruct (is_compiled f) eqn:Hc.
    - destruct (decide (uncompiled_of f ∈ fs)) as [Hun|Hun]; [done|].
      destruct Hout. apply deduplicateFileList_keeps; [done|]. by intros [_ ?].
    - destruct Hout. apply deduplicateFileList_keeps; [done|].
      intros [? _]. congruence. }
  destruct Hred as [Hc Hun]. split; [done|].
  apply deduplicateFileList_keeps; [done|]. intros [Hc' _].
  unfold is_compiled, uncompiled_of in Hc, Hc'. cbn in Hc'.
  by rewrite (drop_last_pyc _ Hc) in Hc'.
Qed.

(** ** Exclusion and discovery *)

Lemma matches_rule_app (ex1 ex2 : list string) (f : File) :
  matches_rule (ex1 ++ ex2) f ↔ matches_rule ex1 f ∨ matches_rule ex2 f.
Proof.
  unfold matches_rule. split.
  - intros (pat & [Hin | Hin]%elem_of_app & Hm); [left | right]; by exists pat.
  - intros [(pat & Hin & Hm) | (pat & Hin & Hm)]; exists pat;
      (split; [apply elem_of_app; by auto | done]).
Qed.

Lemma not_excluded_iff (exclude : list string) (f : File) :
  truthy (Packager.shouldExclude f (Some exclude)) = false
  ↔ ¬ matches_rule exclude f.
Proof.
  rewrite <- truthy_shouldExclude.
  by destruct (truthy (Packager.shouldExclude f (Some exclude))).
Qed.

(** X11.  Exclusion rules act one by one: the discovery under two rule
    lists put together is the intersection of the discoveries under
    each, and no rule list discovers a file that the discovery without
    rules does not. *)
Theorem getFileList_rules_compose
    (w : World) (path : string) (ex1 ex2 : list string) :
  Packager.getFileList w path (Some (ex1 ++ ex2))
  = Packager.getFileList w path (Some ex1) ∩
    Packager.getFileList w path (Some ex2) ∧
  Packager.getFileList w path (Some ex1) ⊆ Packager.getFileList w path None.
Proof.
  split.
  - apply set_eq. intros f.
    rewrite elem_of_intersection, !elem_of_getFileList, !not_excluded_iff,
      matches_rule_app. tauto.
  - intros f. rewrite !elem_of_getFileList, shouldExclude_absent. cbn. tauto.
Qed.

(** X12.  With a non-empty rule list [shouldExclude] never returns
    [False]: it returns [True] when some rule is a prefix of the
    relative path and falls off the loop, returning [None], when none
    is. *)
Theorem shouldExclude_nonempty_results (f : File) (exclude : list string) :
  exclude ≠ [] →
  (matches_rule exclude f ∧
   Packager.shouldExclude f (Some exclude) = Some true) ∨
  (¬ matches_rule exclude f ∧
   Packager.shouldExclude f (Some exclude) = None).
Proof.
  intros Hne. destruct exclude as [|pattern exclude]; [done|].
  change (Packager.shouldExclude f (Some (pattern :: exclude)))
    with (Packager.shouldExclude_loop f (pattern :: exclude)).
  destruct (shouldExclude_loop_cases f (pattern :: exclude)) as [[-> ?]|[-> ?]];
    [by left | by right].
Qed.

Lemma shouldExclude_nonempty_results_witness :
  (matches_rule ["lib"; "pkg"] (mkFile "/work/fn/pkg/util.py" "pkg/util.py") ∧
   Packager.shouldExclude (mkFile "/work/fn/pkg/util.py" "pkg/util.py")
     (Some ["lib"; "pkg"]) = Some true) ∨
  (¬ matches_rule ["lib"; "pkg"] (mkFile "/work/fn/pkg/util.py" "pkg/util.py") ∧
   Packager.shouldExclude (mkFile "/work/fn/pkg/util.py" "pkg/util.py")
     (Some ["lib"; "pkg"]) = None).
Proof.
  apply (shouldExclude_nonempty_results
           (mkFile "/work/fn/pkg/util.py" "pkg/util.py") ["lib"; "pkg"]).
  discriminate.
Defined.

Lemma slice_from_add (a b : string) (n : nat) :
  PyStr.slice_from (String.length a + n) (a +:+ b) = PyStr.slice_from n b.
Proof. induction a as [|x a IH]; [done | exact IH]. Qed.

(** X13.  [getFileList] takes the relative path by position, assuming
    one separator after [path]: when [path] is given with a trailing
    slash, a file directly in it is discovered with a relative path
    that lacks the first character of its name. *)
Theorem getFileList_trailing_slash
    (w : World) (path : string) (exclude : option (list string))
    (dirs files : list string) (name : string) :
  PyStr.endswith path "/" = true →
  (path, dirs, files) ∈ os_walk w path →
  name ∈ files →
  PyStr.startswith name "/" = false →
  truthy (Packager.shouldExclude
            (mkFile (path +:+ name) (PyStr.slice_from 1 name)) exclude)
  = false →
  mkFile (path +:+ name) (PyStr.slice_from 1 name)
    ∈ Packager.getFileList w path exclude.
Proof.
  intros Hslash Hwalk Hname Hrel Hkeep.
  apply elem_of_getFileList. split; [|done]. unfold candidates.
  apply list_elem_of_bind. exists (path, dirs, files). split; [|done].
  apply list_elem_of_bind. exists name. split; [|done].
  apply list_elem_of_singleton.
  assert (Hjoin : os_path_join path name = path +:+ name).
  { unfold os_path_join. by rewrite Hrel, Hslash, orb_true_r. }
  by rewrite Hjoin, slice_from_add.
Qed.

Lemma getFileList_trailing_slash_witness :
  mkFile "/srv/fn/handler.py" "andler.py"
    ∈ Packager.getFileList slash_world "/srv/fn/" None.
Proof.
  apply (getFileList_trailing_slash slash_world "/srv/fn/" None []
           ["handler.py"] "handler.py");
    [reflexivity | by left | by left | reflexivity | reflexivity].
Defined.

(** ** Resolution, naming and writing *)

(** X14.  [files_to_package] leaves the process as it found it, and its
    member list is as long as the deduplicated discoveries of the source
    directory and of every library directory taken together: nothing is
    merged or dropped across roots, so a directory supplied twice
    contributes its members twice. *)
Theorem files_to_package_member_count
    (w : World) (sources : string) (libraries exclude : option (list string))
    (p p' : Proc) (members : list File) :
  files_to_package w sources libraries exclude p = (Returned members, p') →
  p' = p ∧
  length members =
    size (Packager.deduplicateFileList
            (Packager.getFileList w (abspath_at w (cwd p) sources) exclude)) +
    sum_list
      ((λ d, size (Packager.deduplicateFileList
                     (Packager.getFileList w (abspath_at w (cwd p) d) exclude)))
         <$> default [] libraries).
Proof.
  rewrite files_to_package_run.
  destruct (os_path_exists w _); [|done]. intros [= <- <-]. split; [done|].
  unfold resolved_members.
  rewrite length_app, length_join, <- list_fmap_compose. reflexivity.
Qed.

Lemma files_to_package_member_count_witness :
  demo_proc = demo_proc ∧
  length (resolved_members demo_world "/work" "fn" (Some ["libs"; "libs"]) None) =
    size (Packager.deduplicateFileList
            (Packager.getFileList demo_world "/work/fn" None)) +
    sum_list
      ((λ d, size (Packager.deduplicateFileList
                     (Packager.getFileList demo_world
                        (abspath_at demo_world "/work" d) None)))
         <$> ["libs"; "libs"]).
Proof.
  apply (files_to_package_member_count demo_world "fn" (Some ["libs"; "libs"])
           None demo_proc demo_proc).
  vm_compute. reflexivity.
Defined.

Lemma after_last_no_char (c : ascii) (s : string) :
  PyStr.has_char c (PyStr.after_last c s) = false.
Proof.
  induction s as [|d s IH]; [done|]. cbn [PyStr.after_last].
  by destruct (PyStr.has_char c (String d s)) eqn:Hd.
Qed.

Lemma after_last_suffix (c : ascii) (s : string) :
  PyStr.endswith s (PyStr.after_last c s) = true.
Proof.
  apply endswith_spec. induction s as [|d s [pre IH]]; [by exists EmptyString|].
  cbn [PyStr.after_last]. destruct (PyStr.has_char c (String d s)).
  - exists (String d pre). rewrite append_cons. by f_equal.
  - by exists EmptyString.
Qed.

(** X15.  When [zip_filename] returns, the process is unchanged and the
    name is the base name of the source directory as given, a dash, the
    revision and [.zip]; the base name is the part of the argument after
    its last slash and holds no slash, and the revision is a non-empty
    token without whitespace. *)
Theorem zip_filename_shape
    (w : World) (source_directory : string) (p p' : Proc) (name : string) :
  os_path_isabs (cwd p) = true →
  zip_filename w source_directory p = (Returned name, p') →
  p' = p ∧
  ∃ hash,
    name = os_path_basename source_directory +:+ "-" +:+ hash +:+ ".zip" ∧
    hash ≠ EmptyString ∧ has_space hash = false ∧
    PyStr.has_char "/" (os_path_basename source_directory) = false ∧
    PyStr.endswith source_directory (os_path_basename source_directory) = true.
Proof.
  intros Habs Hrun.
  apply zip_filename_returned in Hrun
    as [-> (stdout & hash & _ & Hrows & ->)]; [|done].
  split; [done|]. exists hash. split; [done|].
  destruct (getChecksum_rows_cases (PyStr.split_char "010" stdout))
    as [[_ Hraised] | [_ (hash' & Hret & Hne & Hsp)]]; [congruence|].
  assert (hash' = hash) as -> by congruence.
  split; [done|]. split; [done|].
  split; [apply after_last_no_char | apply after_last_suffix].
Qed.

Lemma zip_filename_shape_witness :
  demo_proc = demo_proc ∧
  ∃ hash,
    "fn-3f2a9c1d5e7b8a6f4c2d1e0f9a8b7c6d5e4f3a2b.zip"
      = os_path_basename "fn" +:+ "-" +:+ hash +:+ ".zip" ∧
    hash ≠ EmptyString ∧ has_space hash = false ∧
    PyStr.has_char "/" (os_path_basename "fn") = false ∧
    PyStr.endswith "fn" (os_path_basename "fn") = true.
Proof.
  apply (zip_filename_shape demo_world "fn" demo_proc demo_proc);
    reflexivity.
Defined.

Lemma for_each_app_run {A : Type} (xs ys : list A) (body : A → Py unit)
    (p p1 : Proc) :
  for_each xs body p = (Returned tt, p1) →
  for_each (xs ++ ys) body p = for_each ys body p1.
Proof.
  revert p. induction xs as [|x xs IH]; intros p; cbn [for_each app].
  - by intros [= <-].
  - intros H. apply bind_returned_inv in H as ([] & p2 & Hx & Hxs).
    erewrite bind_run; [|exact Hx]. by apply IH.
Qed.

(** X16.  [createZip] creates the archive before it reads any member:
    when a member cannot be read it raises [OSError] and leaves behind
    the archive holding the members that came before it. *)
Theorem createZip_unreadable_member
    (w : World) (filename : string) (before after : list File) (f : File)
    (p : Proc) :
  zip_creatable w (os_path_join (cwd p) filename) = true →
  (∀ g, g ∈ before →
        file_readable w (os_path_join (cwd p) (absolutePath g)) = true) →
  file_readable w (os_path_join (cwd p) (absolutePath f)) = false →
  Packager.createZip w filename (before ++ f :: after) p
  = (Raised OSError,
     mkProc (cwd p) (printed p)
       (mkArchive (cwd p) filename (members_of before) :: archives p)).
Proof.
  intros Hcreate Hread Hf. unfold Packager.createZip.
  erewrite bind_run;
    [|unfold Packager.ZipFile_open; rewrite Hcreate; reflexivity].
  erewrite for_each_app_run;
    [|apply (for_each_write_ok w before _ (mkArchive (cwd p) filename [])
               (archives p)); [reflexivity | exact Hread]].
  destruct f as [a r]. cbn [for_each]. apply bind_raised.
  unfold Packager.ZipFile_write. cbn [cwd absolutePath] in *. by rewrite Hf.
Qed.

Lemma createZip_unreadable_member_witness :
  Packager.createZip demo_world "out.zip"
    ([mkFile "/work/fn/handler.py" "handler.py"] ++
     mkFile "/work/fn/gone.py" "gone.py"
     :: [mkFile "/work/libs/dep.py" "dep.py"])
    demo_proc
  = (Raised OSError,
     mkProc "/work" []
       [mkArchive "/work" "out.zip"
          (members_of [mkFile "/work/fn/handler.py" "handler.py"])]).
Proof.
  apply (createZip_unreadable_member demo_world "out.zip"
           [mkFile "/work/fn/handler.py" "handler.py"]
           [mkFile "/work/libs/dep.py" "dep.py"]
           (mkFile "/work/fn/gone.py" "gone.py") demo_proc);
    [reflexivity | | reflexivity].
  intros g Hg. apply list_elem_of_singleton in Hg as ->. reflexivity.
Defined.

(** X19.  When the source directory does not exist, [files_to_package]
    ends in [sys.exit(1)], and a run without [--strict] ends with exit
    code 1 having written no archive and with the working directory as
    it was, whatever the library directories are.  (What the
    [logging.error] call writes is outside the model.) *)
Theorem missing_source_exit_code
    (w : World) (sources : string) (libraries exclude : option (list string))
    (p : Proc) :
  os_path_exists w (abspath_at w (cwd p) sources) = false →
  (files_to_package w sources libraries exclude p).1 = SysExit 1 ∧
  (package w false sources libraries exclude p).1 = SysExit 1 ∧
  cwd (package w false sources libraries exclude p).2 = cwd p ∧
  archives (package w false sources libraries exclude p).2 = archives p.
Proof.
  intros Hmissing.
  assert (Hfiles : files_to_package w sources libraries exclude p
                   = (SysExit 1, p)).
  { by rewrite files_to_package_run, Hmissing. }
  assert (Hrun : package w false sources libraries exclude p = (SysExit 1, p)).
  { unfold package. erewrite bind_run; [|reflexivity]. by apply bind_exit. }
  by rewrite Hfiles, Hrun.
Qed.

Lemma missing_source_exit_code_witness :
  (files_to_package demo_world "nothere" (Some ["libs"]) None demo_proc).1
  = SysExit 1 ∧
  (package demo_world false "nothere" (Some ["libs"]) None demo_proc).1
  = SysExit 1 ∧
  cwd (package demo_world false "nothere" (Some ["libs"]) None demo_proc).2
  = "/work" ∧
  archives (package demo_world false "nothere" (Some ["libs"]) None demo_proc).2
  = [].
Proof.
  apply (missing_source_exit_code demo_world "nothere" (Some ["libs"]) None
           demo_proc).
  reflexivity.
Defined.

(** ** Exclusion and deduplication together *)

Lemma matches_rule_compiled (exclude : list string) (src cmp : File) :
  relativePath cmp = relativePath src +:+ "c" →
  matches_rule exclude src → matches_rule exclude cmp.
Proof.
  intros Hrel (pat & Hin & [rest Hm]%startswith_spec).
  exists pat. split; [done|]. apply startswith_spec.
  exists (rest +:+ "c"). by rewrite Hrel, Hm, append_assoc.
Qed.

Lemma kept_compiled_keeps_source (exclude : option (list string))
    (src cmp : File) :
  relativePath cmp = relativePath src +:+ "c" →
  truthy (Packager.shouldExclude cmp exclude) = false →
  truthy (Packager.shouldExclude src exclude) = false.
Proof.
  intros Hrel. destruct exclude as [exclude|]; [|done].
  rewrite !not_excluded_iff. intros Hno Hsrc.
  apply Hno. by apply (matches_rule_compiled exclude src cmp).
Qed.

(** X17.  Exclusion cannot orphan a compiled file: a rule that is a
    prefix of a source path is a prefix of its compiled path too, so
    whenever the walk reports a source file, the compiled file next to
    it (both paths with [c] appended) is never in the deduplicated
    discovery, whatever the exclusion rules. *)
Theorem compiled_sibling_never_packaged
    (w : World) (path : string) (exclude : option (list string))
    (src cmp : File) :
  src ∈ candidates w path →
  absolutePath cmp = absolutePath src +:+ "c" →
  relativePath cmp = relativePath src +:+ "c" →
  is_compiled cmp = true →
  cmp ∉ Packager.getDeduplicatedFileList w path exclude.
Proof.
  intros Hsrc Habs Hrel Hc Hin. unfold Packager.getDeduplicatedFileList in Hin.
  apply elem_of_elements, elem_of_deduplicateFileList in Hin as [Hin Hno].
  apply Hno. split; [done|].
  assert (Hun : uncompiled_of cmp = src).
  { unfold uncompiled_of. rewrite Habs, Hrel, !drop_last_snoc. by destruct src. }
  rewrite Hun. apply elem_of_getFileList in Hin as [_ Hkeep].
  apply elem_of_getFileList. split; [done|].
  by apply (kept_compiled_keeps_source exclude src cmp).
Qed.

Lemma compiled_sibling_never_packaged_witness :
  mkFile "/work/fn/handler.pyc" "handler.pyc"
    ∉ Packager.getDeduplicatedFileList demo_world "/work/fn"
        (Some ["handler.pyc"; "pkg"]).
Proof.
  apply (compiled_sibling_never_packaged demo_world "/work/fn"
           (Some ["handler.pyc"; "pkg"])
           (mkFile "/work/fn/handler.py" "handler.py"));
    [vm_compute; by left | reflexivity..].
Defined.

(** ** Concrete runs of the general results *)

Lemma getFileList_under_root_witness :
  under_root "/work/fn" (mkFile "/work/fn/pkg/util.py" "pkg/util.py").
Proof.
  apply (getFileList_under_root demo_world "/work/fn" None _
           demo_walk_is_below).
  vm_compute. reflexivity.
Defined.

Lemma package_succeeds_witness :
  package demo_world false "fn" (Some ["libs"]) None demo_proc
  = (Returned tt,
     mkProc "/work"
       ([] ++ ["Created lambda zip file: " +:+
               (os_path_basename "fn" +:+ "-" +:+
                "3f2a9c1d5e7b8a6f4c2d1e0f9a8b7c6d5e4f3a2b" +:+ ".zip")])
       (mkArchive "/work"
          (os_path_basename "fn" +:+ "-" +:+
           "3f2a9c1d5e7b8a6f4c2d1e0f9a8b7c6d5e4f3a2b" +:+ ".zip")
          (members_of
             (resolved_members demo_world "/work" "fn" (Some ["libs"]) None))
        :: [])).
Proof.
  apply (package_succeeds demo_world "fn" (Some ["libs"]) None demo_proc
           demo_show_ref "3f2a9c1d5e7b8a6f4c2d1e0f9a8b7c6d5e4f3a2b");
    [reflexivity.. |].
  intros f Hf. vm_compute in Hf.
  repeat (apply elem_of_cons in Hf as [-> | Hf]; [reflexivity|]).
  by apply elem_of_nil in Hf.
Defined.
